(** * A debugging allocator over a bump arena: model and properties

    Shallow embedding of [pset1/build/Project1 Test1.cpp]: the allocation
    registry ([active_allocations]), the statistics ([gstats]), the arena
    ([default_buffer]) and the functions [m61_malloc], [m61_free],
    [m61_calloc], [m61_get_statistics] and [m61_print_leak_report].

    Conventions.
    - [size_t], [uintptr_t] and [unsigned long long] are 64-bit unsigned
      integers (LP64): values are [Z] in [0, 2^64) and every arithmetic
      operation of the source on them is followed by [wrap].
    - A pointer is its address, a [Z]; [nullptr] is address 0.
    - The global variables of the translation unit are the fields of one
      [state] record that every function receives and returns.
    - [printf] and [fprintf] append the text they write to the [stdout] and
      [stderr] fields; one list element per call. *)

From Stdlib Require Import ZArith List String Bool Lia.
From Stdlib Require Import DecimalString HexadecimalString Sorted.
Import ListNotations.
Open Scope Z_scope.

(** ** Machine integers and pointers *)

Definition SIZE_MAX : Z := 2 ^ 64 - 1.

(** Unsigned 64-bit wrap-around. *)
Definition wrap (z : Z) : Z := z mod 2 ^ 64.

Definition nullptr : Z := 0.

(** ** printf conversions *)

Definition nl : string := String (Ascii.ascii_of_nat 10) EmptyString.

(** [%d] *)
Definition fmt_d (n : Z) : string :=
  DecimalString.NilZero.string_of_int (Z.to_int n).

(** [%zu] *)
Definition fmt_zu (n : Z) : string :=
  DecimalString.NilZero.string_of_uint (N.to_uint (Z.to_N n)).

(** [%p] is implementation-defined; this is the rendering of glibc, used
    only to run the model on concrete inputs. *)
Definition glibc_p (p : Z) : string :=
  if p =? 0 then "(nil)"%string
  else ("0x" ++ HexadecimalString.NilZero.string_of_uint
                  (N.to_hex_uint (Z.to_N p)))%string.

(** [file ? file : "???"] *)
Definition file_or_unknown (file : option string) : string :=
  match file with
  | Some f => f
  | None => "???"%string
  end.

(** ** Data *)

Module allocation_info.
Record t := mk { ptr : Z; size : Z; file : option string; line : Z }.
End allocation_info.

(** Modelled from the spec: [m61_statistics] is declared in [m61.hh], which
    is not among the sources.  The spec lists the counts and byte sums of
    active, total and failed allocations and the smallest and largest
    address handed out; the source initialises eight fields to zero and
    prints the six counters with [%llu]. *)
Record m61_statistics := mk_stats {
  nactive : Z;
  active_size : Z;
  ntotal : Z;
  total_size : Z;
  nfail : Z;
  fail_size : Z;
  heap_min : Z;
  heap_max : Z
}.

Module m61_memory_buffer.
Record t := mk { buffer : Z; pos : Z; size : Z }.
End m61_memory_buffer.

Import m61_memory_buffer (buffer, pos).

Record state := mk_state {
  active_allocations : list allocation_info.t;
  gstats : m61_statistics;
  default_buffer : m61_memory_buffer.t;
  memory : Z -> Z;
  stdout : list string;
  stderr : list string
}.

(** [static m61_statistics gstats = { 0,0,0,0,0,0,0,0 }] *)
Definition gstats0 : m61_statistics := mk_stats 0 0 0 0 0 0 0 0.

(** [size_t size = 8 << 20] *)
Definition arena_size : Z := Z.shiftl 8 20.

(** The state after static initialisation; [base] is the address that
    [mmap] or [VirtualAlloc] returned and [mem] the contents of memory. *)
Definition initial_state (base : Z) (mem : Z -> Z) : state :=
  mk_state [] gstats0 (m61_memory_buffer.mk base 0 arena_size) mem [] [].

(** ** Field updates *)

Definition with_failure (g : m61_statistics) (sz : Z) : m61_statistics :=
  mk_stats (nactive g) (active_size g) (ntotal g) (total_size g)
           (wrap (nfail g + 1)) (wrap (fail_size g + sz))
           (heap_min g) (heap_max g).

Definition with_release (g : m61_statistics) (sz : Z) : m61_statistics :=
  mk_stats (wrap (nactive g - 1)) (wrap (active_size g - sz))
           (ntotal g) (total_size g) (nfail g) (fail_size g)
           (heap_min g) (heap_max g).

Definition set_gstats (st : state) (g : m61_statistics) : state :=
  mk_state (active_allocations st) g (default_buffer st) (memory st)
           (stdout st) (stderr st).

Definition set_memory (st : state) (m : Z -> Z) : state :=
  mk_state (active_allocations st) (gstats st) (default_buffer st) m
           (stdout st) (stderr st).

Definition set_stdout (st : state) (o : list string) : state :=
  mk_state (active_allocations st) (gstats st) (default_buffer st)
           (memory st) o (stderr st).

Definition set_stderr (st : state) (e : list string) : state :=
  mk_state (active_allocations st) (gstats st) (default_buffer st)
           (memory st) (stdout st) e.

(** ** m61_malloc *)

Definition m61_malloc (sz : Z) (file : option string) (line : Z)
    (st : state) : Z * state :=
  let b := default_buffer st in
  let g := gstats st in
  if (sz =? 0) || (wrap (pos b + sz) >? m61_memory_buffer.size b) then
    (nullptr, set_gstats st (with_failure g sz))
  else
    let p := buffer b + pos b in
    let b' := m61_memory_buffer.mk (buffer b) (wrap (pos b + sz))
                                   (m61_memory_buffer.size b) in
    let ptr_value := p in
    let hmin :=
      if (heap_min g =? 0) || (ptr_value <? heap_min g)
      then ptr_value else heap_min g in
    let hmax :=
      if wrap (ptr_value + sz - 1) >? heap_max g
      then wrap (ptr_value + sz - 1) else heap_max g in
    let g' :=
      mk_stats (wrap (nactive g + 1)) (wrap (active_size g + sz))
               (wrap (ntotal g + 1)) (wrap (total_size g + sz))
               (nfail g) (fail_size g) hmin hmax in
    (p, mk_state
          (active_allocations st ++ [allocation_info.mk p sz file line])
          g' b' (memory st) (stdout st) (stderr st)).

(** ** m61_free *)

(** The loop of [m61_free]: the first record whose [ptr] equals [p],
    and the vector with that record erased. *)
Fixpoint find_erase (p : Z) (l : list allocation_info.t)
    : option (allocation_info.t * list allocation_info.t) :=
  match l with
  | [] => None
  | a :: l' =>
      if allocation_info.ptr a =? p then Some (a, l')
      else match find_erase p l' with
           | Some (x, r) => Some (x, a :: r)
           | None => None
           end
  end.

Section Printing.

(** The [%p] conversion of the C library. *)
Variable fmt_p : Z -> string.

Definition invalid_free_message (p : Z) (file : option string)
    (line : Z) : string :=
  ("Invalid free or double free at " ++ file_or_unknown file ++ ":"
     ++ fmt_d line ++ " for pointer " ++ fmt_p p ++ nl)%string.

Definition m61_free (p : Z) (file : option string) (line : Z)
    (st : state) : state :=
  if p =? nullptr then st
  else
    match find_erase p (active_allocations st) with
    | Some (a, rest) =>
        mk_state rest (with_release (gstats st) (allocation_info.size a))
                 (default_buffer st) (memory st) (stdout st) (stderr st)
    | None =>
        set_stderr st (stderr st ++ [invalid_free_message p file line])
    end.

(** ** m61_print_leak_report *)

Definition leak_report_line (a : allocation_info.t) : string :=
  ("Leak Check: " ++ file_or_unknown (allocation_info.file a) ++ ":"
     ++ fmt_d (allocation_info.line a) ++ ": allocated object "
     ++ fmt_p (allocation_info.ptr a) ++ " with size "
     ++ fmt_zu (allocation_info.size a) ++ nl)%string.

Definition m61_print_leak_report (st : state) : state :=
  set_stdout st
    (fold_left (fun out a => out ++ [leak_report_line a])
               (active_allocations st) (stdout st)).

(** The line that the specification describes for one live record:
    [file:line: allocated object <address> with size <size>]. *)
Definition spec_leak_line (a : allocation_info.t) : string :=
  (file_or_unknown (allocation_info.file a) ++ ":"
     ++ fmt_d (allocation_info.line a) ++ ": allocated object "
     ++ fmt_p (allocation_info.ptr a) ++ " with size "
     ++ fmt_zu (allocation_info.size a) ++ nl)%string.

End Printing.

(** ** m61_calloc *)

(** [memset(p, 0, n)].  Memory is a total map here, so the write always
    succeeds; this is what the C function does when the [n] bytes from [p]
    are mapped, as they are for a block inside the arena.  For a block
    that reaches beyond the arena the C function may fault instead. *)
Definition memset0 (m : Z -> Z) (p n : Z) : Z -> Z :=
  fun a => if (p <=? a) && (a <? p + n) then 0 else m a.

Definition m61_calloc (count sz : Z) (file : option string) (line : Z)
    (st : state) : Z * state :=
  if negb (count =? 0) && (sz >? SIZE_MAX / count) then
    (nullptr, set_gstats st (with_failure (gstats st) (wrap (count * sz))))
  else
    let total_size := wrap (count * sz) in
    let '(p, st') := m61_malloc total_size file line st in
    if negb (p =? nullptr)
    then (p, set_memory st' (memset0 (memory st') p total_size))
    else (p, st').

(** ** m61_get_statistics *)

Definition m61_get_statistics (st : state) : m61_statistics := gstats st.

(** ** Sequences of calls *)

Inductive call :=
| Malloc (sz : Z) (file : option string) (line : Z)
| Calloc (count sz : Z) (file : option string) (line : Z)
| Free (p : Z) (file : option string) (line : Z).

(** What the caller of one call observes: the non-null pointer of a
    successful allocation, a null pointer, a release that removed a record,
    or a release that removed none. *)
Inductive outcome :=
| Allocated (p : Z)
| Refused
| Released
| NotReleased.

Definition alloc_outcome (p : Z) : outcome :=
  if p =? nullptr then Refused else Allocated p.

Definition is_live (p : Z) (st : state) : bool :=
  match find_erase p (active_allocations st) with
  | Some _ => true
  | None => false
  end.

Section Traces.

Variable fmt_p : Z -> string.

Definition step (c : call) (st : state) : outcome * state :=
  match c with
  | Malloc sz f l =>
      let '(p, st') := m61_malloc sz f l st in (alloc_outcome p, st')
  | Calloc n sz f l =>
      let '(p, st') := m61_calloc n sz f l st in (alloc_outcome p, st')
  | Free p f l =>
      (if negb (p =? nullptr) && is_live p st
       then Released else NotReleased,
       m61_free fmt_p p f l st)
  end.

Fixpoint run (cs : list call) (st : state) : list outcome * state :=
  match cs with
  | [] => ([], st)
  | c :: cs' =>
      let '(o, st1) := step c st in
      let '(os, st2) := run cs' st1 in
      (o :: os, st2)
  end.

End Traces.

Fixpoint count_allocated (os : list outcome) : Z :=
  match os with
  | [] => 0
  | Allocated _ :: os' => 1 + count_allocated os'
  | _ :: os' => count_allocated os'
  end.

Fixpoint count_released (os : list outcome) : Z :=
  match os with
  | [] => 0
  | Released :: os' => 1 + count_released os'
  | _ :: os' => count_released os'
  end.

(** Sum of the sizes of the records of the registry. *)
Fixpoint sum_sizes (l : list allocation_info.t) : Z :=
  match l with
  | [] => 0
  | a :: l' => allocation_info.size a + sum_sizes l'
  end.

(** ** Invariants *)

(** The cursor of the arena stays inside the arena. *)
Definition cursor_ok (st : state) : Prop :=
  0 <= pos (default_buffer st)
    <= m61_memory_buffer.size (default_buffer st).

(** The bytes [ptr, ptr + size) of a record lie in [lo, hi). *)
Definition block_within (lo hi : Z) (a : allocation_info.t) : Prop :=
  0 < allocation_info.size a /\
  lo <= allocation_info.ptr a /\
  allocation_info.ptr a + allocation_info.size a <= hi.

(** The records of [l], in the order of the vector, are non-empty blocks
    stacked upwards between the addresses [lo] and [hi]: each starts at or
    after the end of the one before it. *)
Fixpoint stacked (lo : Z) (l : list allocation_info.t) (hi : Z) : Prop :=
  match l with
  | [] => lo <= hi
  | a :: l' =>
      lo <= allocation_info.ptr a /\
      0 < allocation_info.size a /\
      stacked (allocation_info.ptr a + allocation_info.size a) l' hi
  end.

(** The arena and registry invariant of the data model: the arena is a
    range of addresses that excludes the null address, the cursor is inside
    it, and the live records are non-empty blocks stacked in the part of
    the arena below the cursor. *)
Record arena_inv (st : state) : Prop := mk_arena_inv {
  inv_base : 0 < buffer (default_buffer st);
  inv_top : buffer (default_buffer st)
            + m61_memory_buffer.size (default_buffer st) <= 2 ^ 64;
  inv_cursor : cursor_ok st;
  inv_stacked :
    stacked (buffer (default_buffer st)) (active_allocations st)
            (buffer (default_buffer st) + pos (default_buffer st))
}.

(** The active counters agree, in 64-bit arithmetic, with the registry. *)
Record counters_inv (st : state) : Prop := mk_counters_inv {
  cnt_base : 0 < buffer (default_buffer st);
  cnt_cursor : cursor_ok st;
  cnt_nactive :
    nactive (gstats st) = wrap (Z.of_nat (List.length (active_allocations st)));
  cnt_active_size :
    active_size (gstats st) = wrap (sum_sizes (active_allocations st))
}.

(** A call whose request cannot carry the cursor of an arena of [cap]
    bytes past [SIZE_MAX]. *)
Definition tame (cap : Z) (c : call) : Prop :=
  match c with
  | Malloc sz _ _ => 0 <= sz /\ sz + cap <= SIZE_MAX
  | Calloc n sz _ _ =>
      0 <= n <= SIZE_MAX /\ 0 <= sz <= SIZE_MAX /\
      (n * sz <= SIZE_MAX -> n * sz + cap <= SIZE_MAX)
  | Free _ _ _ => True
  end.

(** ** Concrete inputs *)

(** An address such as [mmap] returns on Linux. *)
Definition example_base : Z := 0x7f3a00000000.

(** Memory whose bytes are all [0xaa]. *)
Definition stale_memory : Z -> Z := fun _ => 0xaa.

Definition fresh : state := initial_state example_base stale_memory.

(** One live allocation of 10 bytes made at [test.cc:18]. *)
Definition one_live : state :=
  snd (m61_malloc 10 (Some "test.cc"%string) 18 fresh).

(** That allocation released again. *)
Definition released_once : state :=
  m61_free glibc_p example_base (Some "test.cc"%string) 19 one_live.

(** An arena holding one allocation of 8 MiB minus one byte. *)
Definition nearly_full : state :=
  snd (m61_malloc (arena_size - 1) (Some "test.cc"%string) 7 fresh).

(** ** m61_print_statistics *)

(** [n] spaces. *)
Fixpoint spaces (n : nat) : string :=
  match n with
  | O => EmptyString
  | S n' => String (Ascii.ascii_of_nat 32) (spaces n')
  end.

(** [%10llu]: the decimal digits, right-justified in a field of at least
    10 characters. *)
Definition fmt_10llu (n : Z) : string :=
  let d := fmt_zu n in
  (spaces (10 - String.length d) ++ d)%string.

Definition m61_print_statistics (st : state) : state :=
  let stats := m61_get_statistics st in
  set_stdout st
    (stdout st
       ++ [("alloc count: active " ++ fmt_10llu (nactive stats)
              ++ "   total " ++ fmt_10llu (ntotal stats)
              ++ "   fail " ++ fmt_10llu (nfail stats) ++ nl)%string]
       ++ [("alloc size:  active " ++ fmt_10llu (active_size stats)
              ++ "   total " ++ fmt_10llu (total_size stats)
              ++ "   fail " ++ fmt_10llu (fail_size stats) ++ nl)%string]).

(** ** More vocabulary for sequences of calls *)

Fixpoint count_refused (os : list outcome) : Z :=
  match os with
  | [] => 0
  | Refused :: os' => 1 + count_refused os'
  | _ :: os' => count_refused os'
  end.

(** The addresses that the allocation calls of a sequence returned, in
    the order of the calls. *)
Fixpoint allocated_addresses (os : list outcome) : list Z :=
  match os with
  | [] => []
  | Allocated p :: os' => p :: allocated_addresses os'
  | _ :: os' => allocated_addresses os'
  end.

(** The number of bytes an allocation call asks [m61_malloc] for, or
    reports as failed: [sz] for [m61_malloc], the [size_t] product
    [count * sz] for [m61_calloc]. *)
Definition request_bytes (c : call) : Z :=
  match c with
  | Malloc sz _ _ => sz
  | Calloc n sz _ _ => wrap (n * sz)
  | Free _ _ _ => 0
  end.

(** The bytes requested by the calls of [cs] whose outcome in [os] is a
    non-null pointer. *)
Fixpoint allocated_bytes (cs : list call) (os : list outcome) : Z :=
  match cs, os with
  | c :: cs', Allocated _ :: os' => request_bytes c + allocated_bytes cs' os'
  | _ :: cs', _ :: os' => allocated_bytes cs' os'
  | _, _ => 0
  end.

(** The bytes requested by the calls of [cs] whose outcome in [os] is a
    null pointer. *)
Fixpoint refused_bytes (cs : list call) (os : list outcome) : Z :=
  match cs, os with
  | c :: cs', Refused :: os' => request_bytes c + refused_bytes cs' os'
  | _ :: cs', _ :: os' => refused_bytes cs' os'
  | _, _ => 0
  end.

(** The registry without the records that start at [p]. *)
Definition without (p : Z) (l : list allocation_info.t)
    : list allocation_info.t :=
  filter (fun a => negb (allocation_info.ptr a =? p)) l.

(** [field] shows [digits] right-justified in a column of at least [width]
    characters: it is [digits] preceded by spaces only, as wide as the
    longer of [width] and [digits]. *)
Definition right_justified (width : nat) (digits field : string) : Prop :=
  exists k,
    field = (spaces k ++ digits)%string /\
    String.length field = Nat.max width (String.length digits).

(** A state whose six counters all differ: one live allocation of 24
    bytes, two allocations made in all, three refused. *)
Definition mixed : state :=
  snd (run glibc_p
         [Malloc 10 None 1; Malloc 0 None 2; Calloc 3 8 None 3;
          Free example_base None 4; Malloc (arena_size + 1) None 5;
          Malloc 0 None 6]
         fresh).

(** The state after a request of 1 byte, a request of [SIZE_MAX] bytes,
    whose sum with the cursor wraps, and a request of 2 bytes. *)
Definition overlapped : state :=
  snd (run glibc_p
         [Malloc 1 None 1; Malloc SIZE_MAX None 2; Malloc 2 None 3]
         fresh).

(** Two live allocations, made at [a.cc:3] and [b.cc:9]. *)
Definition two_live : state :=
  snd (m61_malloc 24 (Some "b.cc"%string) 9
         (snd (m61_malloc 10 (Some "a.cc"%string) 3 fresh))).

(** * Properties *)

(** ** Arithmetic of the 64-bit types *)

Lemma wrap_range z : 0 <= wrap z <= SIZE_MAX.
Proof.
  unfold wrap, SIZE_MAX.
  pose proof (Z.mod_pos_bound z (2 ^ 64) ltac:(lia)). lia.
Qed.

Lemma wrap_small z : 0 <= z <= SIZE_MAX -> wrap z = z.
Proof.
  unfold wrap, SIZE_MAX. intros H. apply Z.mod_small. lia.
Qed.

Lemma wrap_add_l a b : wrap (wrap a + b) = wrap (a + b).
Proof. unfold wrap. apply Zplus_mod_idemp_l. Qed.

Lemma wrap_sub_l a b : wrap (wrap a - b) = wrap (a - b).
Proof. unfold wrap. apply Zminus_mod_idemp_l. Qed.

(** The guard of [m61_calloc] is exact: it fires precisely when the
    mathematical product does not fit in [size_t]. *)
Lemma calloc_guard_exact count sz :
  0 < count -> 0 <= sz ->
  (sz >? SIZE_MAX / count) = (SIZE_MAX <? count * sz).
Proof.
  intros Hc Hs.
  pose proof (Z.mul_div_le SIZE_MAX count Hc) as Hle.
  pose proof (Z.mul_succ_div_gt SIZE_MAX count Hc) as Hgt.
  destruct (Z.gtb_spec sz (SIZE_MAX / count));
    destruct (Z.ltb_spec SIZE_MAX (count * sz)); try reflexivity; nia.
Qed.

(** ** The failure path of m61_malloc *)

Lemma malloc_reject sz file line st :
  (sz =? 0) || (wrap (pos (default_buffer st) + sz)
                  >? m61_memory_buffer.size (default_buffer st)) = true ->
  m61_malloc sz file line st
  = (nullptr, set_gstats st (with_failure (gstats st) sz)).
Proof. intros H. unfold m61_malloc. rewrite H. reflexivity. Qed.

Lemma malloc_accept sz file line st :
  (sz =? 0) || (wrap (pos (default_buffer st) + sz)
                  >? m61_memory_buffer.size (default_buffer st)) = false ->
  fst (m61_malloc sz file line st)
  = buffer (default_buffer st) + pos (default_buffer st) /\
  active_allocations (snd (m61_malloc sz file line st))
  = active_allocations st
      ++ [allocation_info.mk
            (buffer (default_buffer st) + pos (default_buffer st))
            sz file line] /\
  default_buffer (snd (m61_malloc sz file line st))
  = m61_memory_buffer.mk (buffer (default_buffer st))
      (wrap (pos (default_buffer st) + sz))
      (m61_memory_buffer.size (default_buffer st)) /\
  memory (snd (m61_malloc sz file line st)) = memory st.
Proof. intros H. unfold m61_malloc. rewrite H. simpl. auto. Qed.

(** C7. Allocating zero bytes fails in every state: [m61_malloc] returns
    the null pointer, leaves the registry, the arena and the active and
    total counters as they are, increments the failure count and adds 0 to
    the failure-byte total (both in 64-bit arithmetic). *)
Theorem malloc_zero_fails (st : state) (file : option string) (line : Z) :
  let r := m61_malloc 0 file line st in
  fst r = nullptr /\
  active_allocations (snd r) = active_allocations st /\
  default_buffer (snd r) = default_buffer st /\
  nactive (gstats (snd r)) = nactive (gstats st) /\
  active_size (gstats (snd r)) = active_size (gstats st) /\
  ntotal (gstats (snd r)) = ntotal (gstats st) /\
  total_size (gstats (snd r)) = total_size (gstats st) /\
  nfail (gstats (snd r)) = wrap (nfail (gstats st) + 1) /\
  fail_size (gstats (snd r)) = wrap (fail_size (gstats st) + 0).
Proof.
  cbv zeta. rewrite malloc_reject by reflexivity.
  simpl. repeat split; reflexivity.
Qed.

(** ** m61_free *)

Lemma find_erase_none p l :
  (forall a, In a l -> allocation_info.ptr a <> p) ->
  find_erase p l = None.
Proof.
  induction l as [|a l IH]; intros H; simpl; [reflexivity|].
  destruct (Z.eqb_spec (allocation_info.ptr a) p) as [E|_].
  - exfalso. apply (H a); [left; reflexivity | exact E].
  - rewrite IH; [reflexivity|]. intros b Hb. apply H. right. exact Hb.
Qed.

Lemma find_erase_some p l a rest :
  find_erase p l = Some (a, rest) ->
  exists l1 l2,
    l = l1 ++ a :: l2 /\ rest = l1 ++ l2 /\ allocation_info.ptr a = p /\
    forall b, In b l1 -> allocation_info.ptr b <> p.
Proof.
  revert rest. induction l as [|x l IH]; intros rest H; simpl in H.
  - discriminate.
  - destruct (Z.eqb_spec (allocation_info.ptr x) p) as [E|N].
    + inversion H; subst. exists [], rest. simpl. intuition.
    + destruct (find_erase p l) as [[y r]|] eqn:F; [|discriminate].
      inversion H; subst.
      destruct (IH r eq_refl) as (l1 & l2 & -> & -> & Hp & Hn).
      exists (x :: l1), l2. simpl. repeat split; auto.
      intros b [<-|Hb]; auto.
Qed.

(** C9. Releasing the null pointer changes nothing, whatever the state:
    no record is removed, no counter moves and nothing is printed. *)
Theorem free_null_noop (fmt_p : Z -> string) (st : state)
    (file : option string) (line : Z) :
  m61_free fmt_p nullptr file line st = st.
Proof. reflexivity. Qed.

(** C8. Releasing a non-null address that no live record carries (which
    is what a second release of an address is) leaves the registry, the
    statistics, the arena and the memory as they are and writes one
    diagnostic that names the file, the line and the pointer to the error
    stream; the call returns normally. *)
Theorem free_unknown_reported (fmt_p : Z -> string) (st : state) (p : Z)
    (file : option string) (line : Z) :
  p <> nullptr ->
  (forall a, In a (active_allocations st) -> allocation_info.ptr a <> p) ->
  let st' := m61_free fmt_p p file line st in
  active_allocations st' = active_allocations st /\
  gstats st' = gstats st /\
  default_buffer st' = default_buffer st /\
  memory st' = memory st /\
  stdout st' = stdout st /\
  stderr st'
  = stderr st
      ++ [("Invalid free or double free at " ++ file_or_unknown file ++ ":"
             ++ fmt_d line ++ " for pointer " ++ fmt_p p ++ nl)%string].
Proof.
  intros Hp Hn. unfold m61_free.
  destruct (Z.eqb_spec p nullptr) as [E|_]; [contradiction|].
  rewrite (find_erase_none _ _ Hn). simpl. repeat split; reflexivity.
Qed.

(** ** m61_calloc *)

Lemma calloc_refuse count sz file line st :
  negb (count =? 0) && (sz >? SIZE_MAX / count) = true ->
  m61_calloc count sz file line st
  = (nullptr,
     set_gstats st (with_failure (gstats st) (wrap (count * sz)))).
Proof. intros H. unfold m61_calloc. rewrite H. reflexivity. Qed.

Lemma calloc_delegate count sz file line st :
  negb (count =? 0) && (sz >? SIZE_MAX / count) = false ->
  m61_calloc count sz file line st
  = let '(p, st') := m61_malloc (wrap (count * sz)) file line st in
    if negb (p =? nullptr)
    then (p, set_memory st' (memset0 (memory st') p (wrap (count * sz))))
    else (p, st').
Proof. intros H. unfold m61_calloc. rewrite H. reflexivity. Qed.

Lemma calloc_guard_false count sz :
  0 <= count -> 0 <= sz -> count * sz <= SIZE_MAX ->
  negb (count =? 0) && (sz >? SIZE_MAX / count) = false.
Proof.
  intros Hc Hs Hm.
  destruct (Z.eqb_spec count 0) as [E|N]; [reflexivity|].
  simpl. rewrite calloc_guard_exact by lia. apply Z.ltb_ge. lia.
Qed.

Lemma memset0_inside m p n a : p <= a < p + n -> memset0 m p n a = 0.
Proof.
  intros [H1 H2]. unfold memset0.
  apply Z.leb_le in H1. apply Z.ltb_lt in H2. rewrite H1, H2. reflexivity.
Qed.

Lemma memset0_outside m p n a : a < p \/ p + n <= a -> memset0 m p n a = m a.
Proof.
  intros H. unfold memset0.
  destruct (Z.leb_spec p a); destruct (Z.ltb_spec a (p + n));
    simpl; try reflexivity; lia.
Qed.

(** C3. When [count > 0] and [count * sz] does not fit in [size_t],
    [m61_calloc] returns the null pointer; the arena, the registry and the
    memory are as before, the failure count is incremented and the
    failure-byte total grows by the wrapped product. *)
Theorem calloc_overflow_refused (st : state) (count sz : Z)
    (file : option string) (line : Z) :
  0 < count <= SIZE_MAX ->
  0 <= sz <= SIZE_MAX ->
  SIZE_MAX < count * sz ->
  let r := m61_calloc count sz file line st in
  fst r = nullptr /\
  default_buffer (snd r) = default_buffer st /\
  active_allocations (snd r) = active_allocations st /\
  memory (snd r) = memory st /\
  nactive (gstats (snd r)) = nactive (gstats st) /\
  active_size (gstats (snd r)) = active_size (gstats st) /\
  ntotal (gstats (snd r)) = ntotal (gstats st) /\
  total_size (gstats (snd r)) = total_size (gstats st) /\
  nfail (gstats (snd r)) = wrap (nfail (gstats st) + 1) /\
  fail_size (gstats (snd r))
  = wrap (fail_size (gstats st) + wrap (count * sz)).
Proof.
  intros Hc Hs Hov. cbv zeta.
  rewrite calloc_refuse.
  - simpl. repeat split; reflexivity.
  - destruct (Z.eqb_spec count 0) as [E|_]; [lia|]. simpl.
    rewrite calloc_guard_exact by lia. apply Z.ltb_lt. exact Hov.
Qed.

(** C6. For [count > 0] and [sz > 0] whose product fits in [size_t] and in
    the rest of the arena, [m61_calloc] returns the non-null address of
    the cursor, every byte of the [count * sz] bytes from that address is
    zero on return, and the registry has one more record; when [count] or
    [sz] is zero it returns the null pointer and the registry is as
    before. *)
Theorem calloc_zeroed (st : state) (count sz : Z)
    (file : option string) (line : Z) :
  0 <= count <= SIZE_MAX ->
  0 <= sz <= SIZE_MAX ->
  let r := m61_calloc count sz file line st in
  let b := default_buffer st in
  (0 < count -> 0 < sz -> count * sz <= SIZE_MAX ->
   0 < buffer b -> 0 <= pos b ->
   pos b + count * sz <= m61_memory_buffer.size b ->
   fst r = buffer b + pos b /\
   fst r <> nullptr /\
   (forall a, fst r <= a < fst r + count * sz -> memory (snd r) a = 0) /\
   active_allocations (snd r)
   = active_allocations st
       ++ [allocation_info.mk (buffer b + pos b) (count * sz) file line])
  /\
  (count = 0 \/ sz = 0 ->
   fst r = nullptr /\ active_allocations (snd r) = active_allocations st).
Proof.
  intros Hc Hs. cbv zeta. split.
  - intros Hc0 Hs0 Hm Hb Hp Hfit.
    rewrite calloc_delegate by (apply calloc_guard_false; lia).
    rewrite (wrap_small (count * sz)) by nia.
    assert (G : (count * sz =? 0)
                || (wrap (pos (default_buffer st) + count * sz)
                      >? m61_memory_buffer.size (default_buffer st))
                = false).
    { apply orb_false_iff. split; [apply Z.eqb_neq; nia|].
      assert (wrap (pos (default_buffer st) + count * sz)
              <= pos (default_buffer st) + count * sz)
        by (unfold wrap; apply Z.mod_le; nia).
      destruct (Z.gtb_spec
                  (wrap (pos (default_buffer st) + count * sz))
                  (m61_memory_buffer.size (default_buffer st)));
        [lia | reflexivity]. }
    destruct (malloc_accept _ file line st G) as (Ep & Ea & _ & Em).
    destruct (m61_malloc (count * sz) file line st) as [p st'] eqn:M.
    simpl in Ep, Ea, Em. subst p.
    assert (N : buffer (default_buffer st) + pos (default_buffer st)
                <> nullptr) by (unfold nullptr; lia).
    apply Z.eqb_neq in N. rewrite N. simpl.
    apply Z.eqb_neq in N.
    repeat split; auto.
    intros a Ha. apply memset0_inside. exact Ha.
  - intros Hz.
    assert (P : count * sz = 0) by (destruct Hz; subst; lia).
    rewrite calloc_delegate by (apply calloc_guard_false; lia).
    rewrite P. change (wrap 0) with 0.
    rewrite malloc_reject by reflexivity.
    simpl. split; reflexivity.
Qed.

Lemma free_unknown_reported_witness :
  example_base <> nullptr /\
  active_allocations released_once = [] /\
  stderr (m61_free glibc_p example_base (Some "test.cc"%string) 20
            released_once)
  = [("Invalid free or double free at test.cc:20 for pointer 0x7f3a00000000"
        ++ nl)%string].
Proof.
  assert (H1 : example_base <> nullptr) by (vm_compute; discriminate).
  assert (H2 : forall a, In a (active_allocations released_once) ->
                         allocation_info.ptr a <> example_base)
    by (intros a Ha; vm_compute in Ha; contradiction).
  split; [exact H1|]. split; [reflexivity|].
  destruct (free_unknown_reported glibc_p released_once example_base
              (Some "test.cc"%string) 20 H1 H2) as (_ & _ & _ & _ & _ & E).
  rewrite E. reflexivity.
Defined.

Lemma calloc_overflow_refused_witness :
  SIZE_MAX < SIZE_MAX * 2 /\
  fst (m61_calloc SIZE_MAX 2 None 0 fresh) = nullptr /\
  active_allocations (snd (m61_calloc SIZE_MAX 2 None 0 fresh)) = [] /\
  pos (default_buffer (snd (m61_calloc SIZE_MAX 2 None 0 fresh))) = 0 /\
  nfail (gstats (snd (m61_calloc SIZE_MAX 2 None 0 fresh))) = 1 /\
  fail_size (gstats (snd (m61_calloc SIZE_MAX 2 None 0 fresh)))
  = SIZE_MAX - 1.
Proof.
  assert (H1 : 0 < SIZE_MAX <= SIZE_MAX) by (unfold SIZE_MAX; lia).
  assert (H2 : 0 <= 2 <= SIZE_MAX) by (unfold SIZE_MAX; lia).
  assert (H3 : SIZE_MAX < SIZE_MAX * 2) by (unfold SIZE_MAX; lia).
  destruct (calloc_overflow_refused fresh SIZE_MAX 2 None 0 H1 H2 H3)
    as (E1 & E2 & E3 & _ & _ & _ & _ & _ & E4 & E5).
  split; [exact H3|]. split; [exact E1|].
  split; [rewrite E3; reflexivity|].
  split; [rewrite E2; reflexivity|].
  split; [rewrite E4; reflexivity|].
  rewrite E5. reflexivity.
Defined.

Lemma calloc_zeroed_witness :
  stale_memory example_base = 0xaa /\
  fst (m61_calloc 3 8 (Some "test.cc"%string) 5 fresh) = example_base /\
  (forall a, example_base <= a < example_base + 24 ->
     memory (snd (m61_calloc 3 8 (Some "test.cc"%string) 5 fresh)) a = 0) /\
  fst (m61_calloc 0 8 None 0 one_live) = nullptr /\
  active_allocations (snd (m61_calloc 0 8 None 0 one_live))
  = active_allocations one_live /\
  fst (m61_calloc 8 0 None 0 one_live) = nullptr /\
  active_allocations (snd (m61_calloc 8 0 None 0 one_live))
  = active_allocations one_live.
Proof.
  assert (R3 : 0 <= 3 <= SIZE_MAX) by (unfold SIZE_MAX; lia).
  assert (R8 : 0 <= 8 <= SIZE_MAX) by (unfold SIZE_MAX; lia).
  assert (R0 : 0 <= 0 <= SIZE_MAX) by (unfold SIZE_MAX; lia).
  destruct (calloc_zeroed fresh 3 8 (Some "test.cc"%string) 5 R3 R8)
    as [A _].
  destruct A as (E1 & _ & E2 & _);
    [lia | lia | unfold SIZE_MAX; lia | vm_compute; reflexivity
    | vm_compute; discriminate | vm_compute; discriminate |].
  destruct (calloc_zeroed one_live 0 8 None 0 R0 R8) as [_ B].
  destruct (B (or_introl eq_refl)) as [B1 B2].
  destruct (calloc_zeroed one_live 8 0 None 0 R8 R0) as [_ C].
  destruct (C (or_intror eq_refl)) as [C1 C2].
  split; [reflexivity|]. split; [exact E1|].
  split; [|repeat split; assumption].
  intros a Ha. apply E2. rewrite E1. exact Ha.
Defined.

(** ** m61_print_leak_report *)

Lemma fold_left_snoc {A B : Type} (f : A -> B) (l : list A) (acc : list B) :
  fold_left (fun out a => out ++ [f a]) l acc = acc ++ map f l.
Proof.
  revert acc. induction l as [|x l IH]; intros acc; simpl.
  - rewrite app_nil_r. reflexivity.
  - rewrite IH, <- app_assoc. reflexivity.
Qed.

Lemma leak_report_line_prefix fmt_p a :
  leak_report_line fmt_p a
  = ("Leak Check: " ++ spec_leak_line fmt_p a)%string.
Proof. reflexivity. Qed.

(** C2, as the code has it. [m61_print_leak_report] writes, for the live
    records in the order of the registry, one line each, of the form
    [Leak Check: file:line: allocated object <address> with size <size>]
    (with [???] for a null file name); it writes as many lines as there
    are live records, so none for an empty registry, and it leaves the
    registry, the statistics, the arena, the memory and the error stream
    as they are. *)
Theorem leak_report_lines (fmt_p : Z -> string) (st : state) :
  let st' := m61_print_leak_report fmt_p st in
  stdout st'
  = stdout st
      ++ map (fun a => ("Leak Check: " ++ spec_leak_line fmt_p a)%string)
             (active_allocations st) /\
  List.length (stdout st')
  = (List.length (stdout st) + List.length (active_allocations st))%nat /\
  active_allocations st' = active_allocations st /\
  gstats st' = gstats st /\
  default_buffer st' = default_buffer st /\
  memory st' = memory st /\
  stderr st' = stderr st.
Proof.
  cbv zeta. unfold m61_print_leak_report. simpl.
  rewrite fold_left_snoc.
  split; [reflexivity|].
  split; [rewrite length_app, length_map; reflexivity|].
  repeat split; reflexivity.
Qed.

(** C2, as the specification words it, fails: the line written for the one
    live record of [one_live] is not the line
    [test.cc:18: allocated object 0x7f3a00000000 with size 10]. *)
Lemma leak_report_spec_form_counterexample :
  spec_leak_line glibc_p (allocation_info.mk example_base 10
                            (Some "test.cc"%string) 18)
  = ("test.cc:18: allocated object 0x7f3a00000000 with size 10" ++ nl)%string
  /\
  stdout (m61_print_leak_report glibc_p one_live)
  = [("Leak Check: test.cc:18: allocated object 0x7f3a00000000 with size 10"
        ++ nl)%string] /\
  stdout (m61_print_leak_report glibc_p one_live)
  <> stdout one_live
       ++ map (spec_leak_line glibc_p) (active_allocations one_live).
Proof.
  split; [reflexivity|]. split; [reflexivity|].
  vm_compute. discriminate.
Qed.

(** ** Case analyses of the three operations *)

Lemma malloc_cases sz file line st :
  let b := default_buffer st in
  let g := gstats st in
  (m61_malloc sz file line st
   = (nullptr, set_gstats st (with_failure g sz)) /\
   (sz = 0 \/ m61_memory_buffer.size b < wrap (pos b + sz)))
  \/
  (sz <> 0 /\ wrap (pos b + sz) <= m61_memory_buffer.size b /\
   fst (m61_malloc sz file line st) = buffer b + pos b /\
   active_allocations (snd (m61_malloc sz file line st))
   = active_allocations st
       ++ [allocation_info.mk (buffer b + pos b) sz file line] /\
   default_buffer (snd (m61_malloc sz file line st))
   = m61_memory_buffer.mk (buffer b) (wrap (pos b + sz))
                          (m61_memory_buffer.size b) /\
   nactive (gstats (snd (m61_malloc sz file line st)))
   = wrap (nactive g + 1) /\
   active_size (gstats (snd (m61_malloc sz file line st)))
   = wrap (active_size g + sz) /\
   nfail (gstats (snd (m61_malloc sz file line st))) = nfail g /\
   fail_size (gstats (snd (m61_malloc sz file line st))) = fail_size g).
Proof.
  cbv zeta. unfold m61_malloc.
  destruct (Z.eqb_spec sz 0) as [E|N]; simpl.
  - left. split; [reflexivity | left; exact E].
  - destruct (Z.gtb_spec (wrap (pos (default_buffer st) + sz))
                (m61_memory_buffer.size (default_buffer st))) as [G|G].
    + left. split; [reflexivity | right; lia].
    + right. simpl. repeat split; auto.
Qed.

Lemma calloc_cases count sz file line st :
  let r := m61_calloc count sz file line st in
  let m := m61_malloc (wrap (count * sz)) file line st in
  (0 < count * sz /\ SIZE_MAX < count * sz \/ count < 0 \/ sz < 0) /\
   r = (nullptr,
        set_gstats st (with_failure (gstats st) (wrap (count * sz))))
  \/
  (count < 0 \/ sz < 0 \/ 0 <= count * sz <= SIZE_MAX) /\
  fst r = fst m /\
  (snd r = snd m \/
   snd r = set_memory (snd m)
             (memset0 (memory (snd m)) (fst m) (wrap (count * sz)))).
Proof.
  cbv zeta. unfold m61_calloc.
  destruct (negb (count =? 0) && (sz >? SIZE_MAX / count)) eqn:G.
  - left. split; [|reflexivity].
    apply andb_true_iff in G. destruct G as [G1 G2].
    apply negb_true_iff, Z.eqb_neq in G1.
    destruct (Z.lt_trichotomy count 0) as [L|[L|L]]; [lia|lia|].
    destruct (Z.lt_ge_cases sz 0) as [S|S]; [lia|].
    rewrite calloc_guard_exact in G2 by lia.
    apply Z.ltb_lt in G2. unfold SIZE_MAX in *. lia.
  - right. split.
    + destruct (Z.lt_ge_cases count 0) as [L|L]; [lia|].
      destruct (Z.lt_ge_cases sz 0) as [S|S]; [lia|].
      right. right. split; [nia|].
      destruct (Z.eqb_spec count 0) as [E|N]; [subst; unfold SIZE_MAX; lia|].
      simpl in G. rewrite calloc_guard_exact in G by lia.
      apply Z.ltb_ge in G. exact G.
    + destruct (m61_malloc (wrap (count * sz)) file line st) as [p st'].
      destruct (negb (p =? nullptr)); simpl; auto.
Qed.

Lemma free_cases fmt_p p file line st :
  (p = nullptr /\ m61_free fmt_p p file line st = st)
  \/
  (p <> nullptr /\ is_live p st = false /\
   m61_free fmt_p p file line st
   = set_stderr st (stderr st ++ [invalid_free_message fmt_p p file line]))
  \/
  (p <> nullptr /\ is_live p st = true /\
   exists a l1 l2,
     active_allocations st = l1 ++ a :: l2 /\
     allocation_info.ptr a = p /\
     (forall b, In b l1 -> allocation_info.ptr b <> p) /\
     m61_free fmt_p p file line st
     = mk_state (l1 ++ l2)
         (with_release (gstats st) (allocation_info.size a))
         (default_buffer st) (memory st) (stdout st) (stderr st)).
Proof.
  unfold m61_free, is_live.
  destruct (Z.eqb_spec p nullptr) as [E|N]; [left; auto|right].
  destruct (find_erase p (active_allocations st)) as [[a rest]|] eqn:F.
  - right. split; [exact N|]. split; [reflexivity|].
    destruct (find_erase_some _ _ _ _ F) as (l1 & l2 & E1 & E2 & E3 & E4).
    exists a, l1, l2. subst rest. auto.
  - left. auto.
Qed.

Lemma sum_sizes_app l1 l2 :
  sum_sizes (l1 ++ l2) = sum_sizes l1 + sum_sizes l2.
Proof. induction l1 as [|a l1 IH]; simpl; lia. Qed.

(** ** The cursor never leaves the arena *)

Lemma malloc_cursor_ok sz file line st :
  cursor_ok st -> cursor_ok (snd (m61_malloc sz file line st)).
Proof.
  intros H. unfold cursor_ok in *.
  destruct (malloc_cases sz file line st)
    as [[E _]|(_ & G & _ & _ & Eb & _)].
  - rewrite E. simpl. exact H.
  - rewrite Eb. simpl.
    pose proof (wrap_range (pos (default_buffer st) + sz)). lia.
Qed.

Lemma calloc_cursor_ok count sz file line st :
  cursor_ok st -> cursor_ok (snd (m61_calloc count sz file line st)).
Proof.
  intros H.
  pose proof (malloc_cursor_ok (wrap (count * sz)) file line st H) as M.
  destruct (calloc_cases count sz file line st) as [[_ E]|(_ & _ & [E|E])];
    rewrite E; simpl; auto.
Qed.

Lemma free_cursor_ok fmt_p p file line st :
  cursor_ok st -> cursor_ok (m61_free fmt_p p file line st).
Proof.
  intros H.
  destruct (free_cases fmt_p p file line st)
    as [[_ E]|[(_ & _ & E)|(_ & _ & a & l1 & l2 & _ & _ & _ & E)]];
    rewrite E; exact H.
Qed.

Lemma step_cursor_ok fmt_p c st :
  cursor_ok st -> cursor_ok (snd (step fmt_p c st)).
Proof.
  intros H. destruct c as [sz f l|n sz f l|p f l]; simpl.
  - pose proof (malloc_cursor_ok sz f l st H).
    destruct (m61_malloc sz f l st); assumption.
  - pose proof (calloc_cursor_ok n sz f l st H).
    destruct (m61_calloc n sz f l st); assumption.
  - apply free_cursor_ok. exact H.
Qed.

(** The cursor half of the arena invariant holds after every sequence of
    calls, whatever the sizes requested. *)
Lemma run_cursor_ok fmt_p cs st :
  cursor_ok st -> cursor_ok (snd (run fmt_p cs st)).
Proof.
  revert st. induction cs as [|c cs IH]; intros st H; simpl; [exact H|].
  pose proof (step_cursor_ok fmt_p c st H) as S.
  destruct (step fmt_p c st) as [o st1]. simpl in S.
  specialize (IH st1 S).
  destruct (run fmt_p cs st1) as [os st2]. exact IH.
Qed.

(** ** Active counters and registry *)

Lemma alloc_outcome_pos p : 0 < p -> alloc_outcome p = Allocated p.
Proof.
  intros H. unfold alloc_outcome, nullptr.
  destruct (Z.eqb_spec p 0); [lia | reflexivity].
Qed.

Lemma malloc_counters sz file line st :
  counters_inv st ->
  let r := m61_malloc sz file line st in
  counters_inv (snd r) /\
  Z.of_nat (List.length (active_allocations (snd r)))
  = Z.of_nat (List.length (active_allocations st))
    + count_allocated [alloc_outcome (fst r)]
    - count_released [alloc_outcome (fst r)].
Proof.
  intros [Hb Hc Hn Hs]. cbv zeta.
  pose proof (malloc_cursor_ok sz file line st Hc) as Hc'.
  destruct (malloc_cases sz file line st)
    as [[E _]|(N & G & Ep & Ea & Eb & En & Es & _)].
  - rewrite E in *. simpl. split; [|lia].
    constructor; simpl; assumption.
  - split.
    + constructor; auto.
      * rewrite Eb. simpl. exact Hb.
      * rewrite En, Ea, Hn, wrap_add_l, length_app. simpl.
        f_equal. lia.
      * rewrite Es, Ea, Hs, wrap_add_l, sum_sizes_app. simpl.
        f_equal. lia.
    + rewrite Ep, Ea, length_app.
      unfold cursor_ok in Hc.
      rewrite alloc_outcome_pos by lia. simpl. lia.
Qed.

Lemma set_memory_counters st m : counters_inv st -> counters_inv (set_memory st m).
Proof. intros [Hb Hc Hn Hs]. constructor; assumption. Qed.

Lemma calloc_counters count sz file line st :
  counters_inv st ->
  let r := m61_calloc count sz file line st in
  counters_inv (snd r) /\
  Z.of_nat (List.length (active_allocations (snd r)))
  = Z.of_nat (List.length (active_allocations st))
    + count_allocated [alloc_outcome (fst r)]
    - count_released [alloc_outcome (fst r)].
Proof.
  intros H. cbv zeta.
  destruct (malloc_counters (wrap (count * sz)) file line st H) as [M1 M2].
  destruct (calloc_cases count sz file line st)
    as [[_ E]|(_ & Ep & [E|E])].
  - rewrite E. simpl. split; [|lia].
    destruct H as [Hb Hc Hn Hs]. constructor; assumption.
  - rewrite Ep, E. split; assumption.
  - rewrite Ep, E. split; [apply set_memory_counters; exact M1|exact M2].
Qed.

Lemma free_counters fmt_p p file line st :
  counters_inv st ->
  let r := step fmt_p (Free p file line) st in
  counters_inv (snd r) /\
  Z.of_nat (List.length (active_allocations (snd r)))
  = Z.of_nat (List.length (active_allocations st))
    + count_allocated [fst r] - count_released [fst r].
Proof.
  intros H. cbv zeta. simpl.
  destruct (free_cases fmt_p p file line st)
    as [[Ep E]|[(Np & L & E)|(Np & L & a & l1 & l2 & El & _ & _ & E)]];
    rewrite E.
  - subst p. simpl. split; [exact H | lia].
  - rewrite L, andb_false_r. simpl. split; [|lia].
    destruct H as [Hb Hc Hn Hs]. constructor; assumption.
  - apply Z.eqb_neq in Np. rewrite L, Np. simpl.
    destruct H as [Hb Hc Hn Hs]. rewrite El in Hn, Hs.
    rewrite length_app in Hn. simpl in Hn.
    rewrite sum_sizes_app in Hs. simpl in Hs.
    split.
    + constructor; simpl; auto.
      * rewrite Hn, wrap_sub_l, length_app. f_equal. lia.
      * rewrite Hs, wrap_sub_l, sum_sizes_app. f_equal. lia.
    + rewrite El, !length_app. simpl. lia.
Qed.

Lemma count_allocated_cons o os :
  count_allocated (o :: os) = count_allocated [o] + count_allocated os.
Proof. destruct o; simpl; lia. Qed.

Lemma count_released_cons o os :
  count_released (o :: os) = count_released [o] + count_released os.
Proof. destruct o; simpl; lia. Qed.

Lemma run_counters fmt_p cs st :
  counters_inv st ->
  let r := run fmt_p cs st in
  counters_inv (snd r) /\
  Z.of_nat (List.length (active_allocations (snd r)))
  = Z.of_nat (List.length (active_allocations st))
    + count_allocated (fst r) - count_released (fst r).
Proof.
  revert st. induction cs as [|c cs IH]; intros st H; cbv zeta; simpl.
  - split; [exact H | lia].
  - assert (S : counters_inv (snd (step fmt_p c st)) /\
                Z.of_nat (List.length
                            (active_allocations (snd (step fmt_p c st))))
                = Z.of_nat (List.length (active_allocations st))
                  + count_allocated [fst (step fmt_p c st)]
                  - count_released [fst (step fmt_p c st)]).
    { destruct c as [sz f l|n sz f l|p f l].
      - pose proof (malloc_counters sz f l st H) as M. simpl in *.
        destruct (m61_malloc sz f l st); exact M.
      - pose proof (calloc_counters n sz f l st H) as M. simpl in *.
        destruct (m61_calloc n sz f l st); exact M.
      - apply free_counters. exact H. }
    destruct (step fmt_p c st) as [o st1]. cbn [fst snd] in S.
    destruct S as [S1 S2].
    destruct (IH st1 S1) as [R1 R2].
    destruct (run fmt_p cs st1) as [os st2]. cbn [fst snd] in *.
    split; [exact R1|].
    rewrite (count_allocated_cons o os), (count_released_cons o os). lia.
Qed.

Lemma initial_counters base mem : 0 < base -> counters_inv (initial_state base mem).
Proof.
  intros H. constructor; simpl; try reflexivity; [exact H|].
  unfold cursor_ok. simpl. unfold arena_size. simpl. lia.
Qed.

(** X18. After every sequence of allocate, zeroed-allocate and release
    calls on the initial state, the active count is the number of
    successful allocations minus the number of successful releases and the
    active-byte total is the sum of the sizes of the live records, both
    modulo 2^64, the arithmetic of the counters. *)
Theorem active_counters_match_registry (fmt_p : Z -> string) (base : Z)
    (mem : Z -> Z) (cs : list call) :
  0 < base ->
  let r := run fmt_p cs (initial_state base mem) in
  nactive (m61_get_statistics (snd r))
  = wrap (count_allocated (fst r) - count_released (fst r)) /\
  active_size (m61_get_statistics (snd r))
  = wrap (sum_sizes (active_allocations (snd r))).
Proof.
  intros Hb. cbv zeta. unfold m61_get_statistics.
  destruct (run_counters fmt_p cs _ (initial_counters base mem Hb))
    as [[_ _ Hn Hs] L].
  simpl in L. split; [|exact Hs].
  rewrite Hn. f_equal. lia.
Qed.

Lemma active_counters_match_registry_witness :
  0 < example_base /\
  fst (run glibc_p
         [Malloc 10 None 1; Malloc 0 None 2; Calloc 3 8 None 3;
          Free example_base None 4; Free example_base None 5]
         fresh)
  = [Allocated example_base; Refused; Allocated (example_base + 10);
     Released; NotReleased] /\
  nactive (m61_get_statistics (snd (run glibc_p
         [Malloc 10 None 1; Malloc 0 None 2; Calloc 3 8 None 3;
          Free example_base None 4; Free example_base None 5]
         fresh))) = wrap (2 - 1) /\
  active_size (m61_get_statistics (snd (run glibc_p
         [Malloc 10 None 1; Malloc 0 None 2; Calloc 3 8 None 3;
          Free example_base None 4; Free example_base None 5]
         fresh))) = wrap 24.
Proof.
  assert (H : 0 < example_base) by (unfold example_base; lia).
  split; [exact H|]. split; [reflexivity|].
  exact (active_counters_match_registry glibc_p example_base stale_memory
           [Malloc 10 None 1; Malloc 0 None 2; Calloc 3 8 None 3;
            Free example_base None 4; Free example_base None 5] H).
Defined.

(** ** Stacked blocks *)

Lemma stacked_le lo l hi : stacked lo l hi -> lo <= hi.
Proof.
  revert lo. induction l as [|a l IH]; intros lo H; simpl in H; [exact H|].
  destruct H as (H1 & H2 & H3). specialize (IH _ H3). lia.
Qed.

Lemma stacked_weaken lo lo' l hi hi' :
  stacked lo l hi -> lo' <= lo -> hi <= hi' -> stacked lo' l hi'.
Proof.
  revert lo lo'. induction l as [|a l IH]; intros lo lo' H Hl Hh; simpl in *.
  - lia.
  - destruct H as (H1 & H2 & H3). repeat split; [lia | lia |].
    apply (IH _ _ H3); lia.
Qed.

Lemma stacked_snoc lo l hi p sz file line :
  stacked lo l hi -> hi <= p -> 0 < sz ->
  stacked lo (l ++ [allocation_info.mk p sz file line]) (p + sz).
Proof.
  revert lo. induction l as [|a l IH]; intros lo H Hp Hs; simpl in *.
  - repeat split; lia.
  - destruct H as (H1 & H2 & H3). repeat split; auto.
Qed.

Lemma stacked_remove lo l1 a l2 hi :
  stacked lo (l1 ++ a :: l2) hi -> stacked lo (l1 ++ l2) hi.
Proof.
  revert lo. induction l1 as [|x l1 IH]; intros lo H; simpl in *.
  - destruct H as (H1 & H2 & H3). apply (stacked_weaken _ _ _ _ _ H3); lia.
  - destruct H as (H1 & H2 & H3). repeat split; auto.
Qed.

Lemma stacked_In lo l hi a :
  stacked lo l hi -> In a l -> block_within lo hi a.
Proof.
  revert lo. induction l as [|x l IH]; intros lo H Ha; simpl in *.
  - contradiction.
  - destruct H as (H1 & H2 & H3). destruct Ha as [<-|Ha].
    + pose proof (stacked_le _ _ _ H3). unfold block_within. lia.
    + destruct (IH _ H3 Ha) as (B1 & B2 & B3). unfold block_within. lia.
Qed.

Lemma stacked_sum lo l hi :
  stacked lo l hi ->
  Z.of_nat (List.length l) <= sum_sizes l <= hi - lo.
Proof.
  revert lo. induction l as [|a l IH]; intros lo H; simpl in H.
  - simpl. lia.
  - destruct H as (H1 & H2 & H3). specialize (IH _ H3).
    cbn [List.length sum_sizes]. lia.
Qed.

(** No record of a stack of blocks starts strictly inside another one. *)
Lemma stacked_interior lo l hi r r' k :
  stacked lo l hi -> In r l -> In r' l ->
  0 < k < allocation_info.size r ->
  allocation_info.ptr r' <> allocation_info.ptr r + k.
Proof.
  revert lo. induction l as [|a l IH]; intros lo H Hr Hr' Hk; simpl in *.
  - contradiction.
  - destruct H as (H1 & H2 & H3).
    destruct Hr as [<-|Hr]; destruct Hr' as [<-|Hr'].
    + lia.
    + destruct (stacked_In _ _ _ _ H3 Hr') as (_ & B & _). lia.
    + destruct (stacked_In _ _ _ _ H3 Hr) as (_ & B & _). lia.
    + apply (IH _ H3 Hr Hr' Hk).
Qed.

(** ** The arena invariant under requests that do not wrap the cursor *)

Lemma malloc_arena_inv sz file line st :
  arena_inv st ->
  0 <= sz ->
  sz + m61_memory_buffer.size (default_buffer st) <= SIZE_MAX ->
  let r := m61_malloc sz file line st in
  arena_inv (snd r) /\
  m61_memory_buffer.size (default_buffer (snd r))
  = m61_memory_buffer.size (default_buffer st) /\
  (fst r <> nullptr ->
   0 < sz /\
   buffer (default_buffer st) <= fst r /\
   fst r + sz <= buffer (default_buffer st)
                 + m61_memory_buffer.size (default_buffer st)).
Proof.
  intros [Hb Ht Hc Hs] Hsz Hcap. cbv zeta.
  pose proof (malloc_cursor_ok sz file line st Hc) as Hc'.
  destruct (malloc_cases sz file line st)
    as [[E _]|(N & G & Ep & Ea & Eb & _)].
  - rewrite E. simpl. split; [constructor; assumption|].
    split; [reflexivity|]. intros C. exfalso. apply C. reflexivity.
  - unfold cursor_ok in Hc.
    rewrite wrap_small in G, Eb by lia.
    split; [|split].
    + constructor; auto; rewrite Eb; simpl; try assumption.
      rewrite Ea, Z.add_assoc. apply stacked_snoc with
        (hi := buffer (default_buffer st) + pos (default_buffer st));
        [exact Hs | lia | lia].
    + rewrite Eb. reflexivity.
    + intros _. rewrite Ep. lia.
Qed.

Lemma set_memory_arena_inv st m : arena_inv st -> arena_inv (set_memory st m).
Proof. intros [Hb Ht Hc Hs]. constructor; assumption. Qed.

Lemma calloc_arena_inv count sz file line st :
  arena_inv st ->
  tame (m61_memory_buffer.size (default_buffer st))
       (Calloc count sz file line) ->
  let r := m61_calloc count sz file line st in
  arena_inv (snd r) /\
  m61_memory_buffer.size (default_buffer (snd r))
  = m61_memory_buffer.size (default_buffer st).
Proof.
  intros H (Tc & Ts & Tm). cbv zeta.
  destruct (calloc_cases count sz file line st)
    as [[_ E]|([C|[C|C]] & _ & E)]; try lia.
  - rewrite E. simpl. split; [|reflexivity].
    destruct H as [Hb Ht Hc Hs]. constructor; assumption.
  - assert (W : wrap (count * sz) = count * sz) by (apply wrap_small; lia).
    destruct (malloc_arena_inv (wrap (count * sz)) file line st H)
      as (M1 & M2 & _); [rewrite W; lia | rewrite W; lia |].
    destruct E as [E|E]; rewrite E; [auto|].
    split; [apply set_memory_arena_inv; exact M1 | exact M2].
Qed.

Lemma free_arena_inv fmt_p p file line st :
  arena_inv st ->
  arena_inv (m61_free fmt_p p file line st) /\
  m61_memory_buffer.size (default_buffer (m61_free fmt_p p file line st))
  = m61_memory_buffer.size (default_buffer st).
Proof.
  intros H.
  destruct (free_cases fmt_p p file line st)
    as [[_ E]|[(_ & _ & E)|(_ & _ & a & l1 & l2 & El & _ & _ & E)]];
    rewrite E; simpl.
  - auto.
  - split; [|reflexivity]. destruct H as [Hb Ht Hc Hs].
    constructor; assumption.
  - split; [|reflexivity]. destruct H as [Hb Ht Hc Hs].
    constructor; simpl; auto.
    rewrite El in Hs. apply (stacked_remove _ _ _ _ _ Hs).
Qed.

Lemma run_arena_inv fmt_p cs st :
  arena_inv st ->
  Forall (tame (m61_memory_buffer.size (default_buffer st))) cs ->
  arena_inv (snd (run fmt_p cs st)).
Proof.
  revert st. induction cs as [|c cs IH]; intros st H T; simpl; [exact H|].
  inversion T as [|c' cs' Tc Tcs]; subst.
  assert (S : arena_inv (snd (step fmt_p c st)) /\
              m61_memory_buffer.size
                (default_buffer (snd (step fmt_p c st)))
              = m61_memory_buffer.size (default_buffer st)).
  { destruct c as [sz f l|n sz f l|p f l].
    - destruct Tc as [T1 T2].
      destruct (malloc_arena_inv sz f l st H T1 T2) as (M1 & M2 & _).
      simpl. destruct (m61_malloc sz f l st). auto.
    - destruct (calloc_arena_inv n sz f l st H Tc) as (M1 & M2).
      simpl. destruct (m61_calloc n sz f l st). auto.
    - apply free_arena_inv. exact H. }
  destruct (step fmt_p c st) as [o st1]. cbn [fst snd] in S.
  destruct S as [S1 S2]. rewrite <- S2 in Tcs.
  specialize (IH st1 S1 Tcs).
  destruct (run fmt_p cs st1) as [os st2]. exact IH.
Qed.

Lemma initial_arena_inv base mem :
  0 < base -> base + arena_size <= 2 ^ 64 ->
  arena_inv (initial_state base mem).
Proof.
  intros H1 H2. constructor; simpl; auto.
  - unfold cursor_ok. simpl. unfold arena_size. simpl. lia.
  - lia.
Qed.

(** Where no request wraps the cursor, the active counters are the exact
    number of live records and the exact sum of their sizes. *)
Lemma active_counters_exact st :
  arena_inv st -> counters_inv st ->
  nactive (gstats st) = Z.of_nat (List.length (active_allocations st)) /\
  active_size (gstats st) = sum_sizes (active_allocations st).
Proof.
  intros [Hb Ht Hc Hs] [_ _ Hn Ha].
  pose proof (stacked_sum _ _ _ Hs) as B. unfold cursor_ok in Hc.
  rewrite Hn, Ha. split; apply wrap_small; unfold SIZE_MAX; lia.
Qed.

Lemma active_counters_exact_on_tame_runs fmt_p base mem cs :
  0 < base -> base + arena_size <= 2 ^ 64 ->
  Forall (tame arena_size) cs ->
  let r := run fmt_p cs (initial_state base mem) in
  nactive (gstats (snd r))
  = count_allocated (fst r) - count_released (fst r) /\
  active_size (gstats (snd r)) = sum_sizes (active_allocations (snd r)).
Proof.
  intros Hb Ht T. cbv zeta.
  pose proof (run_arena_inv fmt_p cs _ (initial_arena_inv base mem Hb Ht) T)
    as I.
  destruct (run_counters fmt_p cs _ (initial_counters base mem Hb))
    as [C L].
  destruct (active_counters_exact _ I C) as [E1 E2].
  simpl in L. split; [lia | exact E2].
Qed.

(** ** Which releases find a record *)

Lemma is_live_iff q st :
  is_live q st = true <->
  exists a, In a (active_allocations st) /\ allocation_info.ptr a = q.
Proof.
  unfold is_live. split.
  - destruct (find_erase q (active_allocations st)) as [[a rest]|] eqn:F;
      [intros _|discriminate].
    destruct (find_erase_some _ _ _ _ F) as (l1 & l2 & E & _ & Ep & _).
    exists a. split; [|exact Ep]. rewrite E. apply in_elt.
  - intros (a & Ha & Ep).
    destruct (find_erase q (active_allocations st)) as [[x rest]|] eqn:F;
      [reflexivity|].
    exfalso. revert Ha F.
    induction (active_allocations st) as [|y l IH]; simpl; [tauto|].
    intros [<-|Ha].
    + apply Z.eqb_eq in Ep. rewrite Ep. discriminate.
    + destruct (allocation_info.ptr y =? q); [discriminate|].
      destruct (find_erase q l) as [[z r]|]; [discriminate|].
      intros _. apply IH; [exact Ha | reflexivity].
Qed.

Lemma free_without_match fmt_p st p file line :
  p <> nullptr ->
  (forall a, In a (active_allocations st) -> allocation_info.ptr a <> p) ->
  m61_free fmt_p p file line st
  = set_stderr st (stderr st ++ [invalid_free_message fmt_p p file line]).
Proof.
  intros Hp Hn. unfold m61_free.
  destruct (Z.eqb_spec p nullptr) as [E|_]; [contradiction|].
  rewrite (find_erase_none _ _ Hn). reflexivity.
Qed.

Lemma stacked_after lo l1 a l2 hi b :
  stacked lo (l1 ++ a :: l2) hi -> In b l2 ->
  allocation_info.ptr a < allocation_info.ptr b.
Proof.
  revert lo. induction l1 as [|x l1 IH]; intros lo H Hb; simpl in H.
  - destruct H as (_ & H2 & H3).
    destruct (stacked_In _ _ _ _ H3 Hb) as (_ & B & _). lia.
  - destruct H as (_ & _ & H3). apply (IH _ H3 Hb).
Qed.

(** Under the arena invariant an address that was live and has been
    released is not live any more: a second release finds no record. *)
Lemma released_not_live fmt_p st p file line :
  arena_inv st -> p <> nullptr -> is_live p st = true ->
  is_live p (m61_free fmt_p p file line st) = false.
Proof.
  intros [_ _ _ Hs] Hp L.
  destruct (free_cases fmt_p p file line st)
    as [[E _]|[(_ & L' & _)|(_ & _ & a & l1 & l2 & El & Ea & Hn & E)]];
    [contradiction | congruence |].
  rewrite E. unfold is_live. simpl.
  rewrite find_erase_none; [reflexivity|].
  intros b Hb. apply in_app_or in Hb. destruct Hb as [Hb|Hb].
  - apply Hn. exact Hb.
  - rewrite El in Hs. pose proof (stacked_after _ _ _ _ _ _ Hs Hb). lia.
Qed.

(** X19. [m61_free] finds a record only for an address that is the [ptr]
    of a live record.  In a state that satisfies the arena invariant, an
    address strictly inside the bytes of a live record is the [ptr] of no
    live record, so releasing it writes the diagnostic and leaves the
    registry, the statistics, the arena and the memory as they are. *)
Theorem free_interior_pointer_invalid (fmt_p : Z -> string) (st : state)
    (r : allocation_info.t) (k : Z) (file : option string) (line : Z) :
  arena_inv st ->
  In r (active_allocations st) ->
  0 < k < allocation_info.size r ->
  let p := allocation_info.ptr r + k in
  let st' := m61_free fmt_p p file line st in
  (forall q, is_live q st = true <->
             exists a, In a (active_allocations st) /\
                       allocation_info.ptr a = q) /\
  is_live p st = false /\
  active_allocations st' = active_allocations st /\
  gstats st' = gstats st /\
  default_buffer st' = default_buffer st /\
  memory st' = memory st /\
  stdout st' = stdout st /\
  stderr st' = stderr st ++ [invalid_free_message fmt_p p file line].
Proof.
  intros I Hr Hk. cbv zeta.
  assert (Hn : forall a, In a (active_allocations st) ->
                 allocation_info.ptr a <> allocation_info.ptr r + k).
  { intros a Ha. destruct I as [_ _ _ Hs].
    apply (stacked_interior _ _ _ r a k Hs Hr Ha Hk). }
  assert (Hp : allocation_info.ptr r + k <> nullptr).
  { destruct I as [Hb _ _ Hs].
    destruct (stacked_In _ _ _ _ Hs Hr) as (_ & B & _).
    unfold nullptr. lia. }
  split; [intros q; apply is_live_iff|].
  split.
  - destruct (is_live (allocation_info.ptr r + k) st) eqn:L;
      [|reflexivity].
    apply is_live_iff in L. destruct L as (a & Ha & Ea).
    exfalso. apply (Hn a Ha Ea).
  - rewrite (free_without_match fmt_p st _ file line Hp Hn).
    simpl. repeat split; reflexivity.
Qed.

Lemma free_interior_pointer_invalid_witness :
  active_allocations one_live
  = [allocation_info.mk example_base 10 (Some "test.cc"%string) 18] /\
  is_live (example_base + 3) one_live = false /\
  active_allocations
    (m61_free glibc_p (example_base + 3) (Some "test.cc"%string) 21 one_live)
  = active_allocations one_live /\
  stderr
    (m61_free glibc_p (example_base + 3) (Some "test.cc"%string) 21 one_live)
  = [("Invalid free or double free at test.cc:21 for pointer 0x7f3a00000003"
        ++ nl)%string].
Proof.
  assert (I : arena_inv one_live).
  { constructor; vm_compute; intuition discriminate. }
  assert (Hr : In (allocation_info.mk example_base 10
                     (Some "test.cc"%string) 18)
                  (active_allocations one_live))
    by (left; reflexivity).
  assert (Hk : 0 < 3 < allocation_info.size
                         (allocation_info.mk example_base 10
                            (Some "test.cc"%string) 18))
    by (simpl; lia).
  destruct (free_interior_pointer_invalid glibc_p one_live _ 3
              (Some "test.cc"%string) 21 I Hr Hk)
    as (_ & L & Ea & _ & _ & _ & _ & Ee).
  cbn [allocation_info.ptr] in L, Ea, Ee.
  split; [reflexivity|]. split; [exact L|]. split; [exact Ea|].
  rewrite Ee. reflexivity.
Defined.

(** ** Requests that fit, requests that do not, and requests that wrap *)

(** A request that does not fit and whose sum with the cursor is
    representable is refused, and only the failure statistics change. *)
Lemma malloc_exhausted_atomic sz file line st :
  0 <= pos (default_buffer st) ->
  0 <= sz ->
  pos (default_buffer st) + sz <= SIZE_MAX ->
  m61_memory_buffer.size (default_buffer st) < pos (default_buffer st) + sz ->
  m61_malloc sz file line st
  = (nullptr, set_gstats st (with_failure (gstats st) sz)).
Proof.
  intros Hp Hs Hr Hx. apply malloc_reject.
  rewrite wrap_small by lia. apply orb_true_iff. right.
  apply Z.gtb_lt. exact Hx.
Qed.

(** Whenever [m61_malloc] returns the null pointer from an arena that
    does not contain the null address, the state is the old state with
    the failure statistics updated and nothing else changed. *)
Lemma malloc_failure_atomic sz file line st :
  0 < buffer (default_buffer st) ->
  0 <= pos (default_buffer st) ->
  fst (m61_malloc sz file line st) = nullptr ->
  snd (m61_malloc sz file line st)
  = set_gstats st (with_failure (gstats st) sz).
Proof.
  intros Hb Hp Hn.
  destruct (malloc_cases sz file line st) as [[E _]|(_ & _ & Ep & _)].
  - rewrite E. reflexivity.
  - rewrite Ep in Hn. unfold nullptr in Hn. lia.
Qed.

(** With the arena holding one allocation of 8 MiB minus one byte, a
    request for 2 bytes is refused and the live record stays. *)
Lemma malloc_two_bytes_when_nearly_full :
  fst (m61_malloc (arena_size - 1) (Some "test.cc"%string) 7 fresh)
  = example_base /\
  m61_malloc 2 (Some "test.cc"%string) 8 nearly_full
  = (nullptr, set_gstats nearly_full (with_failure (gstats nearly_full) 2)) /\
  active_allocations (snd (m61_malloc 2 (Some "test.cc"%string) 8 nearly_full))
  = [allocation_info.mk example_base (arena_size - 1)
       (Some "test.cc"%string) 7] /\
  pos (default_buffer (snd (m61_malloc 2 (Some "test.cc"%string) 8
                              nearly_full)))
  = arena_size - 1.
Proof. repeat split. Qed.

(** C1 fails on the code. After one allocation of 1 byte, a request for
    [SIZE_MAX] bytes makes [pos + sz] wrap to 0, which passes the test
    against the capacity: the call returns the non-null address [base + 1]
    and registers [SIZE_MAX] bytes there, a range that ends far beyond the
    end of the arena, and the cursor goes back to 0. *)
Theorem malloc_wrapping_request_leaves_arena :
  let r := run glibc_p [Malloc 1 None 1; Malloc SIZE_MAX None 2] fresh in
  fst r = [Allocated example_base; Allocated (example_base + 1)] /\
  active_allocations (snd r)
  = [allocation_info.mk example_base 1 None 1;
     allocation_info.mk (example_base + 1) SIZE_MAX None 2] /\
  pos (default_buffer (snd r)) = 0 /\
  buffer (default_buffer (snd r))
    + m61_memory_buffer.size (default_buffer (snd r))
  < (example_base + 1) + SIZE_MAX.
Proof. vm_compute. repeat split. Qed.

(** C5 fails on the code for the same input: in the state after one
    allocation of 1 byte, a request for [SIZE_MAX] bytes does not fit
    ([pos + sz] exceeds the capacity), yet [m61_malloc] does not refuse
    it: it returns a non-null pointer, moves the cursor, adds a record and
    leaves the failure statistics alone. *)
Theorem malloc_accepts_request_that_does_not_fit :
  let st := snd (m61_malloc 1 None 1 fresh) in
  let r := m61_malloc SIZE_MAX None 2 st in
  m61_memory_buffer.size (default_buffer st)
  < pos (default_buffer st) + SIZE_MAX /\
  fst r = example_base + 1 /\
  fst r <> nullptr /\
  pos (default_buffer st) = 1 /\
  pos (default_buffer (snd r)) = 0 /\
  List.length (active_allocations st) = 1%nat /\
  List.length (active_allocations (snd r)) = 2%nat /\
  nfail (gstats (snd r)) = nfail (gstats st) /\
  fail_size (gstats (snd r)) = fail_size (gstats st).
Proof. vm_compute. repeat split; discriminate. Qed.

(** * Further properties of the allocator *)

(** ** The successful path of m61_malloc, in full *)

Lemma malloc_accept_eq sz file line st :
  sz <> 0 ->
  wrap (pos (default_buffer st) + sz)
  <= m61_memory_buffer.size (default_buffer st) ->
  let b := default_buffer st in
  let g := gstats st in
  let p := buffer b + pos b in
  m61_malloc sz file line st
  = (p,
     mk_state
       (active_allocations st ++ [allocation_info.mk p sz file line])
       (mk_stats (wrap (nactive g + 1)) (wrap (active_size g + sz))
                 (wrap (ntotal g + 1)) (wrap (total_size g + sz))
                 (nfail g) (fail_size g)
                 (if (heap_min g =? 0) || (p <? heap_min g)
                  then p else heap_min g)
                 (if wrap (p + sz - 1) >? heap_max g
                  then wrap (p + sz - 1) else heap_max g))
       (m61_memory_buffer.mk (buffer b) (wrap (pos b + sz))
                             (m61_memory_buffer.size b))
       (memory st) (stdout st) (stderr st)).
Proof.
  intros N G. cbv zeta. unfold m61_malloc.
  apply Z.eqb_neq in N. rewrite N. simpl.
  destruct (Z.gtb_spec (wrap (pos (default_buffer st) + sz))
              (m61_memory_buffer.size (default_buffer st))); [lia|].
  reflexivity.
Qed.

(** ** X1: the arena never moves and the cursor never leaves it *)

Lemma step_arena_fixed fmt_p c st :
  buffer (default_buffer (snd (step fmt_p c st)))
  = buffer (default_buffer st) /\
  m61_memory_buffer.size (default_buffer (snd (step fmt_p c st)))
  = m61_memory_buffer.size (default_buffer st).
Proof.
  assert (M : forall sz f l,
             buffer (default_buffer (snd (m61_malloc sz f l st)))
             = buffer (default_buffer st) /\
             m61_memory_buffer.size
               (default_buffer (snd (m61_malloc sz f l st)))
             = m61_memory_buffer.size (default_buffer st)).
  { intros sz f l.
    destruct (malloc_cases sz f l st) as [[E _]|(_ & _ & _ & _ & Eb & _)].
    - rewrite E. simpl. auto.
    - rewrite Eb. simpl. auto. }
  destruct c as [sz f l|n sz f l|p f l]; simpl.
  - specialize (M sz f l). destruct (m61_malloc sz f l st). exact M.
  - specialize (M (wrap (n * sz)) f l).
    destruct (calloc_cases n sz f l st) as [[_ E]|(_ & _ & [E|E])].
    + rewrite E. simpl. auto.
    + destruct (m61_calloc n sz f l st). simpl in E. subst. exact M.
    + destruct (m61_calloc n sz f l st). simpl in E. subst. exact M.
  - destruct (free_cases fmt_p p f l st)
      as [[_ E]|[(_ & _ & E)|(_ & _ & a & l1 & l2 & _ & _ & _ & E)]];
      rewrite E; simpl; auto.
Qed.

(** X1. After any sequence of calls on the initial state, whatever sizes
    and pointers are passed, the arena still starts at the address it was
    given, still has 8 MiB, and its cursor is between 0 and 8 MiB. *)
Theorem arena_fixed_and_cursor_bounded (fmt_p : Z -> string) (base : Z)
    (mem : Z -> Z) (cs : list call) :
  let st := snd (run fmt_p cs (initial_state base mem)) in
  buffer (default_buffer st) = base /\
  m61_memory_buffer.size (default_buffer st) = 8 * 1024 * 1024 /\
  0 <= pos (default_buffer st) <= 8 * 1024 * 1024.
Proof.
  cbv zeta.
  assert (G : forall st0,
             cursor_ok st0 ->
             cursor_ok (snd (run fmt_p cs st0)) /\
             buffer (default_buffer (snd (run fmt_p cs st0)))
             = buffer (default_buffer st0) /\
             m61_memory_buffer.size
               (default_buffer (snd (run fmt_p cs st0)))
             = m61_memory_buffer.size (default_buffer st0)).
  { induction cs as [|c cs IH]; intros st0 H; simpl; [auto|].
    pose proof (step_cursor_ok fmt_p c st0 H) as S.
    destruct (step_arena_fixed fmt_p c st0) as [A1 A2].
    destruct (step fmt_p c st0) as [o st1]. cbn [fst snd] in *.
    destruct (IH st1 S) as (I1 & I2 & I3).
    destruct (run fmt_p cs st1) as [os st2]. cbn [fst snd] in *.
    repeat split; try apply I1; congruence. }
  destruct (G (initial_state base mem)) as (C & B & S).
  { unfold cursor_ok. simpl. unfold arena_size. simpl. lia. }
  unfold cursor_ok in C. rewrite S in C. simpl in *.
  change arena_size with (8 * 1024 * 1024) in *. auto.
Qed.

(** ** X2, X3: when m61_malloc succeeds and what a failure changes *)

(** X2. In an arena that does not contain the null address, for a request
    whose sum with the cursor is representable, [m61_malloc] returns a
    non-null pointer exactly when the size is not zero and fits in the rest
    of the arena; the pointer is then the address of the cursor, and the
    cursor advances by the size. *)
Theorem malloc_succeeds_iff_fits (st : state) (sz : Z)
    (file : option string) (line : Z) :
  0 < buffer (default_buffer st) ->
  0 <= pos (default_buffer st) ->
  0 <= sz ->
  pos (default_buffer st) + sz <= SIZE_MAX ->
  let r := m61_malloc sz file line st in
  (fst r <> nullptr <->
   sz <> 0 /\
   pos (default_buffer st) + sz
   <= m61_memory_buffer.size (default_buffer st)) /\
  (fst r <> nullptr ->
   fst r = buffer (default_buffer st) + pos (default_buffer st) /\
   pos (default_buffer (snd r)) = pos (default_buffer st) + sz).
Proof.
  intros Hb Hp Hs Hr. cbv zeta.
  pose proof (wrap_small (pos (default_buffer st) + sz) ltac:(lia)) as W.
  destruct (malloc_cases sz file line st)
    as [[E C]|(N & G & Ep & _ & Eb & _)].
  - rewrite E. simpl. split.
    + split; [intros X; exfalso; apply X; reflexivity|].
      intros [N F]. exfalso. destruct C as [C|C]; [contradiction|lia].
    + intros X. exfalso. apply X. reflexivity.
  - rewrite Ep, Eb. simpl. rewrite W in *.
    assert (buffer (default_buffer st) + pos (default_buffer st) <> nullptr)
      by (unfold nullptr; lia).
    split; [split; auto|auto].
Qed.

Lemma malloc_succeeds_iff_fits_witness :
  fst (m61_malloc 10 None 0 nearly_full) = nullptr /\
  fst (m61_malloc 1 None 0 nearly_full) = example_base + (arena_size - 1) /\
  pos (default_buffer (snd (m61_malloc 1 None 0 nearly_full))) = arena_size.
Proof.
  assert (Hb : 0 < buffer (default_buffer nearly_full))
    by (vm_compute; reflexivity).
  assert (Hp : 0 <= pos (default_buffer nearly_full))
    by (vm_compute; discriminate).
  destruct (malloc_succeeds_iff_fits nearly_full 10 None 0 Hb Hp)
    as [[A _] _]; [lia | vm_compute; discriminate |].
  destruct (malloc_succeeds_iff_fits nearly_full 1 None 0 Hb Hp)
    as [[_ B] C]; [lia | vm_compute; discriminate |].
  split.
  - destruct (Z.eq_dec (fst (m61_malloc 10 None 0 nearly_full)) nullptr)
      as [E|N]; [exact E|].
    exfalso. destruct (A N) as [_ F]. vm_compute in F. apply F. reflexivity.
  - assert (N : fst (m61_malloc 1 None 0 nearly_full) <> nullptr).
    { apply B. split; [discriminate | vm_compute; discriminate]. }
    destruct (C N) as [C1 C2]. split; [exact C1 | exact C2].
Defined.

(** X3. Whenever [m61_malloc] returns the null pointer, in an arena that
    does not contain the null address, the registry, the arena, the memory,
    both output streams and the active, total and address-range statistics
    are untouched; the failure count grows by one and the failure-byte total
    by the requested size. *)
Theorem malloc_null_changes_only_failure_stats (st : state) (sz : Z)
    (file : option string) (line : Z) :
  0 < buffer (default_buffer st) ->
  0 <= pos (default_buffer st) ->
  fst (m61_malloc sz file line st) = nullptr ->
  let st' := snd (m61_malloc sz file line st) in
  active_allocations st' = active_allocations st /\
  default_buffer st' = default_buffer st /\
  memory st' = memory st /\
  stdout st' = stdout st /\
  stderr st' = stderr st /\
  gstats st'
  = mk_stats (nactive (gstats st)) (active_size (gstats st))
             (ntotal (gstats st)) (total_size (gstats st))
             (wrap (nfail (gstats st) + 1))
             (wrap (fail_size (gstats st) + sz))
             (heap_min (gstats st)) (heap_max (gstats st)).
Proof.
  intros Hb Hp Hn. cbv zeta.
  rewrite (malloc_failure_atomic sz file line st Hb Hp Hn).
  simpl. repeat split; reflexivity.
Qed.

Lemma malloc_null_changes_only_failure_stats_witness :
  active_allocations (snd (m61_malloc 2 None 0 nearly_full))
  = active_allocations nearly_full /\
  default_buffer (snd (m61_malloc 2 None 0 nearly_full))
  = default_buffer nearly_full /\
  nfail (gstats (snd (m61_malloc 2 None 0 nearly_full))) = 1 /\
  fail_size (gstats (snd (m61_malloc 2 None 0 nearly_full))) = 2.
Proof.
  assert (Hb : 0 < buffer (default_buffer nearly_full))
    by (vm_compute; reflexivity).
  assert (Hp : 0 <= pos (default_buffer nearly_full))
    by (vm_compute; discriminate).
  assert (Hn : fst (m61_malloc 2 None 0 nearly_full) = nullptr)
    by reflexivity.
  destruct (malloc_null_changes_only_failure_stats nearly_full 2 None 0
              Hb Hp Hn) as (A & B & _ & _ & _ & G).
  split; [exact A|]. split; [exact B|]. rewrite G. split; reflexivity.
Defined.

(** ** X4: the total and failure counts over a sequence of calls *)

Lemma malloc_tallies sz file line st :
  0 < buffer (default_buffer st) ->
  0 <= pos (default_buffer st) ->
  let r := m61_malloc sz file line st in
  (fst r = nullptr /\
   ntotal (gstats (snd r)) = ntotal (gstats st) /\
   nfail (gstats (snd r)) = wrap (nfail (gstats st) + 1))
  \/
  (0 < fst r /\
   ntotal (gstats (snd r)) = wrap (ntotal (gstats st) + 1) /\
   nfail (gstats (snd r)) = nfail (gstats st)).
Proof.
  intros Hb Hp. cbv zeta.
  destruct (malloc_cases sz file line st) as [[E _]|(N & G & _)].
  - left. rewrite E. simpl. auto.
  - right. rewrite (malloc_accept_eq sz file line st N G). simpl.
    split; [lia | auto].
Qed.

Lemma calloc_tallies count sz file line st :
  0 < buffer (default_buffer st) ->
  0 <= pos (default_buffer st) ->
  let r := m61_calloc count sz file line st in
  (fst r = nullptr /\
   ntotal (gstats (snd r)) = ntotal (gstats st) /\
   nfail (gstats (snd r)) = wrap (nfail (gstats st) + 1))
  \/
  (0 < fst r /\
   ntotal (gstats (snd r)) = wrap (ntotal (gstats st) + 1) /\
   nfail (gstats (snd r)) = nfail (gstats st)).
Proof.
  intros Hb Hp. cbv zeta.
  pose proof (malloc_tallies (wrap (count * sz)) file line st Hb Hp) as M.
  cbv zeta in M.
  destruct (calloc_cases count sz file line st) as [[_ E]|(_ & Ep & [E|E])].
  - left. rewrite E. simpl. auto.
  - rewrite Ep, E. exact M.
  - rewrite Ep, E. simpl. exact M.
Qed.

Lemma free_keeps_tallies fmt_p p file line st :
  let st' := m61_free fmt_p p file line st in
  ntotal (gstats st') = ntotal (gstats st) /\
  total_size (gstats st') = total_size (gstats st) /\
  nfail (gstats st') = nfail (gstats st) /\
  fail_size (gstats st') = fail_size (gstats st) /\
  heap_min (gstats st') = heap_min (gstats st) /\
  heap_max (gstats st') = heap_max (gstats st) /\
  default_buffer st' = default_buffer st /\
  memory st' = memory st /\
  stdout st' = stdout st.
Proof.
  cbv zeta.
  destruct (free_cases fmt_p p file line st)
    as [[_ E]|[(_ & _ & E)|(_ & _ & a & l1 & l2 & _ & _ & _ & E)]];
    rewrite E; simpl; repeat split; reflexivity.
Qed.

Lemma count_refused_cons o os :
  count_refused (o :: os) = count_refused [o] + count_refused os.
Proof. destruct o; simpl; lia. Qed.

Lemma step_tallies fmt_p c st n f :
  0 < buffer (default_buffer st) ->
  cursor_ok st ->
  ntotal (gstats st) = wrap n ->
  nfail (gstats st) = wrap f ->
  ntotal (gstats (snd (step fmt_p c st)))
  = wrap (n + count_allocated [fst (step fmt_p c st)]) /\
  nfail (gstats (snd (step fmt_p c st)))
  = wrap (f + count_refused [fst (step fmt_p c st)]).
Proof.
  intros Hb Hc Hn Hf. unfold cursor_ok in Hc.
  assert (A : forall r : Z * state,
             (fst r = nullptr /\
              ntotal (gstats (snd r)) = ntotal (gstats st) /\
              nfail (gstats (snd r)) = wrap (nfail (gstats st) + 1))
             \/
             (0 < fst r /\
              ntotal (gstats (snd r)) = wrap (ntotal (gstats st) + 1) /\
              nfail (gstats (snd r)) = nfail (gstats st)) ->
             ntotal (gstats (snd r))
             = wrap (n + count_allocated [alloc_outcome (fst r)]) /\
             nfail (gstats (snd r))
             = wrap (f + count_refused [alloc_outcome (fst r)])).
  { intros r [(E & T & F)|(E & T & F)]; rewrite T, F, Hn, Hf.
    - rewrite E. simpl. rewrite wrap_add_l, Z.add_0_r. auto.
    - rewrite alloc_outcome_pos by exact E. simpl.
      rewrite wrap_add_l, Z.add_0_r. auto. }
  destruct c as [sz fl l|k sz fl l|p fl l]; simpl.
  - specialize (A _ (malloc_tallies sz fl l st Hb ltac:(lia))).
    destruct (m61_malloc sz fl l st). exact A.
  - specialize (A _ (calloc_tallies k sz fl l st Hb ltac:(lia))).
    destruct (m61_calloc k sz fl l st). exact A.
  - destruct (free_keeps_tallies fmt_p p fl l st) as (T & _ & F & _).
    rewrite T, F, Hn, Hf.
    destruct (negb (p =? nullptr) && is_live p st); simpl;
      rewrite !Z.add_0_r; auto.
Qed.

Lemma run_tallies fmt_p cs st n f :
  0 < buffer (default_buffer st) ->
  cursor_ok st ->
  ntotal (gstats st) = wrap n ->
  nfail (gstats st) = wrap f ->
  ntotal (gstats (snd (run fmt_p cs st)))
  = wrap (n + count_allocated (fst (run fmt_p cs st))) /\
  nfail (gstats (snd (run fmt_p cs st)))
  = wrap (f + count_refused (fst (run fmt_p cs st))).
Proof.
  revert st n f. induction cs as [|c cs IH]; intros st n f Hb Hc Hn Hf.
  - simpl. rewrite !Z.add_0_r. auto.
  - simpl.
    destruct (step_tallies fmt_p c st n f Hb Hc Hn Hf) as [S1 S2].
    pose proof (step_cursor_ok fmt_p c st Hc) as C1.
    destruct (step_arena_fixed fmt_p c st) as [B1 _].
    destruct (step fmt_p c st) as [o st1]. cbn [fst snd] in *.
    rewrite <- B1 in Hb.
    destruct (IH st1 _ _ Hb C1 S1 S2) as [R1 R2].
    destruct (run fmt_p cs st1) as [os st2]. cbn [fst snd] in *.
    rewrite (count_allocated_cons o os), (count_refused_cons o os).
    rewrite R1, R2. split; f_equal; lia.
Qed.

(** X4. After any sequence of calls on the initial state, the total count
    is the number of allocation calls that returned a non-null pointer and
    the failure count is the number that returned null, as values of the
    64-bit counters; releases change neither. *)
Theorem totals_count_outcomes (fmt_p : Z -> string) (base : Z)
    (mem : Z -> Z) (cs : list call) :
  0 < base ->
  let r := run fmt_p cs (initial_state base mem) in
  ntotal (m61_get_statistics (snd r)) = wrap (count_allocated (fst r)) /\
  nfail (m61_get_statistics (snd r)) = wrap (count_refused (fst r)).
Proof.
  intros Hb. cbv zeta. unfold m61_get_statistics.
  apply (run_tallies fmt_p cs (initial_state base mem) 0 0).
  - exact Hb.
  - unfold cursor_ok. simpl. unfold arena_size. simpl. lia.
  - reflexivity.
  - reflexivity.
Qed.

Lemma totals_count_outcomes_witness :
  fst (run glibc_p
         [Malloc 10 None 1; Malloc 0 None 2; Calloc SIZE_MAX 2 None 3;
          Free example_base None 4; Calloc 3 8 None 5]
         fresh)
  = [Allocated example_base; Refused; Refused; Released;
     Allocated (example_base + 10)] /\
  ntotal (m61_get_statistics (snd (run glibc_p
         [Malloc 10 None 1; Malloc 0 None 2; Calloc SIZE_MAX 2 None 3;
          Free example_base None 4; Calloc 3 8 None 5]
         fresh))) = wrap 2 /\
  nfail (m61_get_statistics (snd (run glibc_p
         [Malloc 10 None 1; Malloc 0 None 2; Calloc SIZE_MAX 2 None 3;
          Free example_base None 4; Calloc 3 8 None 5]
         fresh))) = wrap 2.
Proof.
  assert (H : 0 < example_base) by (unfold example_base; lia).
  split; [reflexivity|].
  exact (totals_count_outcomes glibc_p example_base stale_memory
           [Malloc 10 None 1; Malloc 0 None 2; Calloc SIZE_MAX 2 None 3;
            Free example_base None 4; Calloc 3 8 None 5] H).
Defined.

(** ** X5: live blocks of a run without wrapping requests *)

Lemma run_arena_fixed fmt_p cs st :
  buffer (default_buffer (snd (run fmt_p cs st)))
  = buffer (default_buffer st) /\
  m61_memory_buffer.size (default_buffer (snd (run fmt_p cs st)))
  = m61_memory_buffer.size (default_buffer st).
Proof.
  revert st. induction cs as [|c cs IH]; intros st; simpl; [auto|].
  destruct (step_arena_fixed fmt_p c st) as [A1 A2].
  destruct (step fmt_p c st) as [o st1]. cbn [fst snd] in *.
  destruct (IH st1) as [I1 I2].
  destruct (run fmt_p cs st1) as [os st2]. cbn [fst snd] in *.
  split; congruence.
Qed.

Lemma stacked_order lo l1 a l2 b l3 hi :
  stacked lo (l1 ++ a :: l2 ++ b :: l3) hi ->
  allocation_info.ptr a + allocation_info.size a <= allocation_info.ptr b.
Proof.
  revert lo. induction l1 as [|x l1 IH]; intros lo H; simpl in H.
  - destruct H as (_ & _ & H3).
    assert (Hb : In b (l2 ++ b :: l3)) by apply in_elt.
    destruct (stacked_In _ _ _ _ H3 Hb) as (_ & B & _). exact B.
  - destruct H as (_ & _ & H3). apply (IH _ H3).
Qed.

(** X5. After a sequence of calls none of which can wrap the cursor, every
    live record is a non-empty block inside the arena, and the records lie
    in the registry in ascending address order without overlap: each one
    ends at or before the start of every later one. *)
Theorem live_blocks_ascending_in_arena (fmt_p : Z -> string) (base : Z)
    (mem : Z -> Z) (cs : list call) :
  0 < base -> base + arena_size <= 2 ^ 64 ->
  Forall (tame arena_size) cs ->
  let st := snd (run fmt_p cs (initial_state base mem)) in
  (forall a, In a (active_allocations st) ->
     0 < allocation_info.size a /\
     base <= allocation_info.ptr a /\
     allocation_info.ptr a + allocation_info.size a <= base + arena_size) /\
  (forall l1 a l2 b l3,
     active_allocations st = l1 ++ a :: l2 ++ b :: l3 ->
     allocation_info.ptr a + allocation_info.size a
     <= allocation_info.ptr b).
Proof.
  intros Hb Ht T. cbv zeta.
  pose proof (run_arena_inv fmt_p cs _ (initial_arena_inv base mem Hb Ht) T)
    as [_ _ Hc Hs].
  destruct (run_arena_fixed fmt_p cs (initial_state base mem)) as [B S].
  simpl in B, S. unfold cursor_ok in Hc. rewrite B in Hs. rewrite S in Hc.
  split.
  - intros a Ha. destruct (stacked_In _ _ _ _ Hs Ha) as (A1 & A2 & A3).
    repeat split; lia.
  - intros l1 a l2 b l3 E. rewrite E in Hs.
    apply (stacked_order _ _ _ _ _ _ _ Hs).
Qed.

Lemma live_blocks_ascending_in_arena_witness :
  active_allocations
    (snd (run glibc_p [Malloc 10 None 1; Calloc 3 8 None 2; Malloc 5 None 3;
                       Free (example_base + 10) None 4] fresh))
  = [allocation_info.mk example_base 10 None 1;
     allocation_info.mk (example_base + 34) 5 None 3] /\
  example_base + 10 <= example_base + 34 /\
  example_base + 34 + 5 <= example_base + arena_size.
Proof.
  assert (Hb : 0 < example_base) by (unfold example_base; lia).
  assert (Ht : example_base + arena_size <= 2 ^ 64)
    by (vm_compute; discriminate).
  assert (T : Forall (tame arena_size)
                [Malloc 10 None 1; Calloc 3 8 None 2; Malloc 5 None 3;
                 Free (example_base + 10) None 4]).
  { repeat constructor; unfold SIZE_MAX, arena_size; simpl; lia. }
  destruct (live_blocks_ascending_in_arena glibc_p example_base stale_memory
              _ Hb Ht T) as [A B].
  split; [reflexivity|]. split.
  - apply (B [] (allocation_info.mk example_base 10 None 1) []
             (allocation_info.mk (example_base + 34) 5 None 3) []).
    reflexivity.
  - apply (A (allocation_info.mk (example_base + 34) 5 None 3)).
    right. left. reflexivity.
Defined.

(** ** X6: the statistics ledger of a run without wrapping requests *)

Lemma malloc_ledger sz file line st :
  arena_inv st ->
  0 <= sz ->
  sz + m61_memory_buffer.size (default_buffer st) <= SIZE_MAX ->
  total_size (gstats st) = pos (default_buffer st) /\
  Z.of_nat (List.length (active_allocations st)) <= ntotal (gstats st)
    <= total_size (gstats st) ->
  let st' := snd (m61_malloc sz file line st) in
  total_size (gstats st') = pos (default_buffer st') /\
  Z.of_nat (List.length (active_allocations st')) <= ntotal (gstats st')
    <= total_size (gstats st').
Proof.
  intros [Hb Ht Hc Hs] Hsz Hcap [Et Hn]. cbv zeta.
  unfold cursor_ok in Hc.
  destruct (malloc_cases sz file line st) as [[E _]|(N & G & _)].
  - rewrite E. simpl. auto.
  - rewrite (malloc_accept_eq sz file line st N G). simpl.
    rewrite Et, length_app. simpl.
    rewrite wrap_small in G by lia.
    rewrite (wrap_small (pos (default_buffer st) + sz)) by lia.
    rewrite (wrap_small (ntotal (gstats st) + 1)) by lia.
    lia.
Qed.

Lemma step_ledger fmt_p c st :
  arena_inv st ->
  tame (m61_memory_buffer.size (default_buffer st)) c ->
  total_size (gstats st) = pos (default_buffer st) /\
  Z.of_nat (List.length (active_allocations st)) <= ntotal (gstats st)
    <= total_size (gstats st) ->
  let st' := snd (step fmt_p c st) in
  total_size (gstats st') = pos (default_buffer st') /\
  Z.of_nat (List.length (active_allocations st')) <= ntotal (gstats st')
    <= total_size (gstats st').
Proof.
  intros I T L. cbv zeta.
  destruct c as [sz f l|n sz f l|p f l]; simpl.
  - destruct T as [T1 T2].
    pose proof (malloc_ledger sz f l st I T1 T2 L) as M.
    destruct (m61_malloc sz f l st). exact M.
  - destruct T as (Tc & Ts & Tm).
    destruct (calloc_cases n sz f l st)
      as [[_ E]|([C|[C|C]] & _ & E)]; try lia.
    + rewrite E. simpl. exact L.
    + assert (W : wrap (n * sz) = n * sz) by (apply wrap_small; lia).
      pose proof (malloc_ledger (wrap (n * sz)) f l st I
                    ltac:(rewrite W; lia) ltac:(rewrite W; lia) L) as M.
      destruct (m61_calloc n sz f l st) as [q st']. simpl in E.
      destruct E as [E|E]; rewrite E; exact M.
  - destruct (free_cases fmt_p p f l st)
      as [[_ E]|[(_ & _ & E)|(_ & _ & a & l1 & l2 & El & _ & _ & E)]];
      rewrite E; simpl; try exact L.
    destruct L as [Et Hn]. rewrite El in Hn.
    rewrite length_app in *. simpl in Hn. split; [exact Et | lia].
Qed.

Lemma run_ledger fmt_p cs st :
  arena_inv st ->
  Forall (tame (m61_memory_buffer.size (default_buffer st))) cs ->
  total_size (gstats st) = pos (default_buffer st) /\
  Z.of_nat (List.length (active_allocations st)) <= ntotal (gstats st)
    <= total_size (gstats st) ->
  let st' := snd (run fmt_p cs st) in
  total_size (gstats st') = pos (default_buffer st') /\
  Z.of_nat (List.length (active_allocations st')) <= ntotal (gstats st')
    <= total_size (gstats st').
Proof.
  revert st. induction cs as [|c cs IH]; intros st I T L; cbv zeta; simpl;
    [exact L|].
  inversion T as [|c' cs' Tc Tcs]; subst.
  pose proof (step_ledger fmt_p c st I Tc L) as S. cbv zeta in S.
  pose proof (run_arena_inv fmt_p [c] st I (Forall_cons _ Tc (Forall_nil _)))
    as I1.
  destruct (step_arena_fixed fmt_p c st) as [_ A2].
  simpl in I1.
  destruct (step fmt_p c st) as [o st1]. cbn [fst snd] in *.
  rewrite <- A2 in Tcs.
  specialize (IH st1 I1 Tcs S). cbv zeta in IH.
  destruct (run fmt_p cs st1) as [os st2]. exact IH.
Qed.

(** X6. After a sequence of calls none of which can wrap the cursor, the
    total-byte statistic is exactly the cursor of the arena (every byte
    ever handed out, released or not), the active count does not exceed
    the total count, and the active bytes do not exceed the total bytes,
    which do not exceed the 8 MiB of the arena. *)
Theorem totals_track_cursor (fmt_p : Z -> string) (base : Z)
    (mem : Z -> Z) (cs : list call) :
  0 < base -> base + arena_size <= 2 ^ 64 ->
  Forall (tame arena_size) cs ->
  let st := snd (run fmt_p cs (initial_state base mem)) in
  let g := m61_get_statistics st in
  total_size g = pos (default_buffer st) /\
  0 <= nactive g <= ntotal g /\
  0 <= active_size g <= total_size g /\
  total_size g <= arena_size.
Proof.
  intros Hb Ht T. cbv zeta. unfold m61_get_statistics.
  pose proof (run_arena_inv fmt_p cs _ (initial_arena_inv base mem Hb Ht) T)
    as I.
  destruct (run_counters fmt_p cs _ (initial_counters base mem Hb))
    as [C _].
  destruct (active_counters_exact _ I C) as [E1 E2].
  destruct (run_ledger fmt_p cs (initial_state base mem)
              (initial_arena_inv base mem Hb Ht) T) as [L1 L2].
  { simpl. lia. }
  destruct (run_arena_fixed fmt_p cs (initial_state base mem)) as [_ S].
  simpl in S.
  destruct I as [_ _ Hc Hs]. unfold cursor_ok in Hc.
  pose proof (stacked_sum _ _ _ Hs) as B.
  rewrite E1, E2. rewrite S in Hc. repeat split; lia.
Qed.

Lemma totals_track_cursor_witness :
  total_size (m61_get_statistics
    (snd (run glibc_p [Malloc 10 None 1; Calloc 3 8 None 2;
                       Free example_base None 3] fresh)))
  = pos (default_buffer
    (snd (run glibc_p [Malloc 10 None 1; Calloc 3 8 None 2;
                       Free example_base None 3] fresh))) /\
  pos (default_buffer
    (snd (run glibc_p [Malloc 10 None 1; Calloc 3 8 None 2;
                       Free example_base None 3] fresh))) = 34 /\
  active_size (m61_get_statistics
    (snd (run glibc_p [Malloc 10 None 1; Calloc 3 8 None 2;
                       Free example_base None 3] fresh))) = 24.
Proof.
  assert (Hb : 0 < example_base) by (unfold example_base; lia).
  assert (Ht : example_base + arena_size <= 2 ^ 64)
    by (vm_compute; discriminate).
  assert (T : Forall (tame arena_size)
                [Malloc 10 None 1; Calloc 3 8 None 2;
                 Free example_base None 3]).
  { repeat constructor; unfold SIZE_MAX, arena_size; simpl; lia. }
  destruct (totals_track_cursor glibc_p example_base stale_memory _ Hb Ht T)
    as (A & _).
  split; [exact A|]. split; reflexivity.
Defined.

(** ** Induction over runs without wrapping requests *)

Lemma step_arena_inv fmt_p c st :
  arena_inv st ->
  tame (m61_memory_buffer.size (default_buffer st)) c ->
  arena_inv (snd (step fmt_p c st)).
Proof.
  intros I T.
  pose proof (run_arena_inv fmt_p [c] st I (Forall_cons _ T (Forall_nil _)))
    as R.
  simpl in R. destruct (step fmt_p c st) as [o st1]. exact R.
Qed.

Lemma tame_run_ind fmt_p (P : state -> Prop) :
  (forall st c,
     arena_inv st ->
     tame (m61_memory_buffer.size (default_buffer st)) c ->
     P st -> P (snd (step fmt_p c st))) ->
  forall cs st,
    arena_inv st ->
    Forall (tame (m61_memory_buffer.size (default_buffer st))) cs ->
    P st -> P (snd (run fmt_p cs st)).
Proof.
  intros Hstep. induction cs as [|c cs IH]; intros st I T H; simpl;
    [exact H|].
  inversion T as [|c' cs' Tc Tcs]; subst.
  pose proof (Hstep st c I Tc H) as S.
  pose proof (step_arena_inv fmt_p c st I Tc) as I1.
  destruct (step_arena_fixed fmt_p c st) as [_ A2].
  destruct (step fmt_p c st) as [o st1]. cbn [fst snd] in *.
  rewrite <- A2 in Tcs. specialize (IH st1 I1 Tcs S).
  destruct (run fmt_p cs st1) as [os st2]. exact IH.
Qed.

(** What a step does to the statistics of the address range. *)
Lemma step_heap_range fmt_p c st :
  arena_inv st ->
  tame (m61_memory_buffer.size (default_buffer st)) c ->
  let st' := snd (step fmt_p c st) in
  (pos (default_buffer st') = pos (default_buffer st) /\
   heap_min (gstats st') = heap_min (gstats st) /\
   heap_max (gstats st') = heap_max (gstats st))
  \/
  (exists sz,
     0 < sz /\
     pos (default_buffer st') = pos (default_buffer st) + sz /\
     pos (default_buffer st') <= m61_memory_buffer.size (default_buffer st) /\
     fst (step fmt_p c st)
     = Allocated (buffer (default_buffer st) + pos (default_buffer st)) /\
     heap_min (gstats st')
     = (if (heap_min (gstats st) =? 0)
           || (buffer (default_buffer st) + pos (default_buffer st)
               <? heap_min (gstats st))
        then buffer (default_buffer st) + pos (default_buffer st)
        else heap_min (gstats st)) /\
     heap_max (gstats st')
     = (if buffer (default_buffer st) + pos (default_buffer st) + sz - 1
           >? heap_max (gstats st)
        then buffer (default_buffer st) + pos (default_buffer st) + sz - 1
        else heap_max (gstats st))).
Proof.
  intros I T. cbv zeta.
  assert (M : forall sz f l,
             0 <= sz ->
             sz + m61_memory_buffer.size (default_buffer st) <= SIZE_MAX ->
             let r := m61_malloc sz f l st in
             (fst r = nullptr /\
              pos (default_buffer (snd r)) = pos (default_buffer st) /\
              heap_min (gstats (snd r)) = heap_min (gstats st) /\
              heap_max (gstats (snd r)) = heap_max (gstats st))
             \/
             (0 < sz /\
              pos (default_buffer (snd r)) = pos (default_buffer st) + sz /\
              pos (default_buffer (snd r))
              <= m61_memory_buffer.size (default_buffer st) /\
              alloc_outcome (fst r)
              = Allocated (buffer (default_buffer st)
                           + pos (default_buffer st)) /\
              heap_min (gstats (snd r))
              = (if (heap_min (gstats st) =? 0)
                    || (buffer (default_buffer st) + pos (default_buffer st)
                        <? heap_min (gstats st))
                 then buffer (default_buffer st) + pos (default_buffer st)
                 else heap_min (gstats st)) /\
              heap_max (gstats (snd r))
              = (if buffer (default_buffer st) + pos (default_buffer st)
                    + sz - 1 >? heap_max (gstats st)
                 then buffer (default_buffer st) + pos (default_buffer st)
                      + sz - 1
                 else heap_max (gstats st)))).
  { intros sz f l Hs Hcap. cbv zeta.
    destruct I as [Hb Ht Hc _]. unfold cursor_ok in Hc.
    destruct (malloc_cases sz f l st) as [[E _]|(N & G & _)].
    - left. rewrite E. simpl. auto.
    - right. rewrite (malloc_accept_eq sz f l st N G). simpl.
      rewrite wrap_small in G by lia.
      rewrite (wrap_small (pos (default_buffer st) + sz)) by lia.
      rewrite (wrap_small (buffer (default_buffer st)
                           + pos (default_buffer st) + sz - 1))
        by (unfold SIZE_MAX; lia).
      rewrite alloc_outcome_pos by lia.
      repeat split; auto; lia. }
  destruct c as [sz f l|n sz f l|p f l]; simpl.
  - destruct T as [T1 T2]. specialize (M sz f l T1 T2). cbv zeta in M.
    destruct (m61_malloc sz f l st) as [q st']. cbn [fst snd] in *.
    destruct M as [(_ & M)|(M1 & M2 & M3 & M4 & M5)];
      [left; exact M | right; exists sz; auto].
  - destruct T as (Tc & Ts & Tm).
    destruct (calloc_cases n sz f l st)
      as [[_ E]|([C|[C|C]] & Ep & E)]; try lia.
    + left. rewrite E. simpl. auto.
    + assert (W : wrap (n * sz) = n * sz) by (apply wrap_small; lia).
      specialize (M (wrap (n * sz)) f l ltac:(rewrite W; lia)
                    ltac:(rewrite W; lia)). cbv zeta in M.
      destruct (m61_calloc n sz f l st) as [q st']. cbn [fst snd] in *.
      assert (G : gstats st'
                  = gstats (snd (m61_malloc (wrap (n * sz)) f l st)) /\
                  default_buffer st'
                  = default_buffer
                      (snd (m61_malloc (wrap (n * sz)) f l st)))
        by (destruct E as [E|E]; rewrite E; simpl; auto).
      destruct G as [G1 G2]. rewrite G1, G2, Ep.
      destruct M as [(_ & M)|(M1 & M2 & M3 & M4 & M5)];
        [left; exact M | right; exists (wrap (n * sz)); auto].
  - left. destruct (free_keeps_tallies fmt_p p f l st)
      as (_ & _ & _ & _ & H1 & H2 & H3 & _).
    rewrite H1, H2, H3. auto.
Qed.

(** X7. After a sequence of calls none of which can wrap the cursor, the
    recorded address range is exactly the part of the arena handed out so
    far: both bounds are 0 while nothing has been allocated; afterwards the
    lower bound is the first byte of the arena and the upper bound is the
    last byte below the cursor. Releases never move either bound. *)
Theorem heap_range_is_used_arena (fmt_p : Z -> string) (base : Z)
    (mem : Z -> Z) (cs : list call) :
  0 < base -> base + arena_size <= 2 ^ 64 ->
  Forall (tame arena_size) cs ->
  let st := snd (run fmt_p cs (initial_state base mem)) in
  let g := m61_get_statistics st in
  (pos (default_buffer st) = 0 /\ heap_min g = 0 /\ heap_max g = 0)
  \/
  (0 < pos (default_buffer st) /\
   heap_min g = base /\
   heap_max g = base + pos (default_buffer st) - 1).
Proof.
  intros Hb Ht T. cbv zeta. unfold m61_get_statistics.
  destruct (run_arena_fixed fmt_p cs (initial_state base mem)) as [B _].
  simpl in B.
  assert (R : (fun st =>
              (pos (default_buffer st) = 0 /\
               heap_min (gstats st) = 0 /\ heap_max (gstats st) = 0)
              \/
              (0 < pos (default_buffer st) /\
               heap_min (gstats st) = buffer (default_buffer st) /\
               heap_max (gstats st)
               = buffer (default_buffer st) + pos (default_buffer st) - 1))
             (snd (run fmt_p cs (initial_state base mem))));
    [|cbv beta in R; rewrite B in R; exact R].
  apply (tame_run_ind fmt_p
           (fun st =>
              (pos (default_buffer st) = 0 /\
               heap_min (gstats st) = 0 /\ heap_max (gstats st) = 0)
              \/
              (0 < pos (default_buffer st) /\
               heap_min (gstats st) = buffer (default_buffer st) /\
               heap_max (gstats st)
               = buffer (default_buffer st) + pos (default_buffer st) - 1))).
  - intros st c I Tc H.
    destruct (step_arena_fixed fmt_p c st) as [A1 _]. rewrite A1.
    destruct (step_heap_range fmt_p c st I Tc)
      as [(E1 & E2 & E3)|(sz & S0 & E1 & E2 & _ & E3 & E4)].
    + rewrite E1, E2, E3. exact H.
    + right. rewrite E1, E3, E4.
      destruct I as [Ib It Ic _]. unfold cursor_ok in Ic.
      destruct H as [(P0 & H1 & H2)|(P0 & H1 & H2)]; rewrite H1, H2.
      * rewrite P0. simpl.
        destruct (Z.gtb_spec (buffer (default_buffer st) + 0 + sz - 1) 0);
          [|lia].
        repeat split; lia.
      * destruct (Z.eqb_spec (buffer (default_buffer st)) 0); [lia|].
        destruct (Z.ltb_spec
                    (buffer (default_buffer st) + pos (default_buffer st))
                    (buffer (default_buffer st))); [lia|].
        destruct (Z.gtb_spec
                    (buffer (default_buffer st) + pos (default_buffer st)
                     + sz - 1)
                    (buffer (default_buffer st) + pos (default_buffer st)
                     - 1)); [|lia].
        simpl. repeat split; lia.
  - apply initial_arena_inv; assumption.
  - exact T.
  - left. simpl. auto.
Qed.

Lemma heap_range_is_used_arena_witness :
  heap_min (m61_get_statistics
    (snd (run glibc_p [Malloc 10 None 1; Calloc 3 8 None 2;
                       Free example_base None 3] fresh))) = example_base /\
  heap_max (m61_get_statistics
    (snd (run glibc_p [Malloc 10 None 1; Calloc 3 8 None 2;
                       Free example_base None 3] fresh)))
  = example_base + 34 - 1.
Proof.
  assert (Hb : 0 < example_base) by (unfold example_base; lia).
  assert (Ht : example_base + arena_size <= 2 ^ 64)
    by (vm_compute; discriminate).
  assert (T : Forall (tame arena_size)
                [Malloc 10 None 1; Calloc 3 8 None 2;
                 Free example_base None 3]).
  { repeat constructor; unfold SIZE_MAX, arena_size; simpl; lia. }
  destruct (heap_range_is_used_arena glibc_p example_base stale_memory _
              Hb Ht T) as [(P0 & _)|(_ & A & B)].
  - vm_compute in P0. discriminate.
  - split; [exact A | exact B].
Defined.

(** ** X8 to X12: allocations and releases composed *)

Lemma find_erase_app_last p l x :
  (forall a, In a l -> allocation_info.ptr a <> p) ->
  allocation_info.ptr x = p ->
  find_erase p (l ++ [x]) = Some (x, l).
Proof.
  intros Hn Hx. induction l as [|a l IH]; simpl.
  - apply Z.eqb_eq in Hx. rewrite Hx. reflexivity.
  - destruct (Z.eqb_spec (allocation_info.ptr a) p) as [E|_].
    + exfalso. apply (Hn a); [left; reflexivity | exact E].
    + rewrite IH; [reflexivity|]. intros b Hb. apply Hn. right. exact Hb.
Qed.

Lemma not_live_no_match p st :
  is_live p st = false ->
  forall a, In a (active_allocations st) -> allocation_info.ptr a <> p.
Proof.
  intros L a Ha E.
  assert (X : is_live p st = true) by (apply is_live_iff; exists a; auto).
  congruence.
Qed.

Lemma without_no_match p l :
  (forall b, In b l -> allocation_info.ptr b <> p) -> without p l = l.
Proof.
  intros H. induction l as [|a l IH]; simpl; [reflexivity|].
  destruct (Z.eqb_spec (allocation_info.ptr a) p) as [E|_].
  - exfalso. apply (H a); [left; reflexivity | exact E].
  - simpl. f_equal. apply IH. intros b Hb. apply H. right. exact Hb.
Qed.

Lemma live_pointer_in_arena p st :
  arena_inv st -> is_live p st = true ->
  buffer (default_buffer st) <= p
  < buffer (default_buffer st) + pos (default_buffer st).
Proof.
  intros [_ _ _ Hs] L. apply is_live_iff in L. destruct L as (a & Ha & <-).
  destruct (stacked_In _ _ _ _ Hs Ha) as (A1 & A2 & A3). lia.
Qed.

(** X8. Allocating a non-empty block that fits and releasing it at once,
    in a state that satisfies the arena invariant and whose active counters
    agree with the registry, gives back the registry and the active count
    and bytes of before and prints no diagnostic; the total count keeps the
    allocation and the cursor keeps its advance, so the space is not
    reclaimed. *)
Theorem malloc_then_free_round_trip (fmt_p : Z -> string) (st : state)
    (sz : Z) (f1 : option string) (l1 : Z) (f2 : option string) (l2 : Z) :
  arena_inv st ->
  counters_inv st ->
  0 < sz ->
  pos (default_buffer st) + sz <= m61_memory_buffer.size (default_buffer st) ->
  let r := m61_malloc sz f1 l1 st in
  let st2 := m61_free fmt_p (fst r) f2 l2 (snd r) in
  fst r <> nullptr /\
  active_allocations st2 = active_allocations st /\
  nactive (gstats st2) = nactive (gstats st) /\
  active_size (gstats st2) = active_size (gstats st) /\
  stderr st2 = stderr st /\
  ntotal (gstats st2) = wrap (ntotal (gstats st) + 1) /\
  pos (default_buffer st2) = pos (default_buffer st) + sz.
Proof.
  intros I C Hs Hfit. cbv zeta.
  pose proof I as [Hb Ht Hc Hst]. unfold cursor_ok in Hc.
  destruct C as [_ _ Cn Ca].
  assert (W : wrap (pos (default_buffer st) + sz)
              = pos (default_buffer st) + sz)
    by (apply wrap_small; unfold SIZE_MAX; lia).
  rewrite (malloc_accept_eq sz f1 l1 st ltac:(lia) ltac:(rewrite W; lia)).
  cbn [fst snd]. unfold m61_free. cbn [active_allocations].
  destruct (Z.eqb_spec
              (buffer (default_buffer st) + pos (default_buffer st))
              nullptr) as [E|N]; [unfold nullptr in E; lia|].
  rewrite find_erase_app_last; [|intros a Ha|reflexivity].
  - simpl. rewrite W, !wrap_sub_l.
    replace (nactive (gstats st) + 1 - 1) with (nactive (gstats st)) by lia.
    replace (active_size (gstats st) + sz - sz)
      with (active_size (gstats st)) by lia.
    assert (WW : forall z, wrap (wrap z) = wrap z)
      by (intros z; unfold wrap; apply Zmod_mod).
    rewrite Cn, Ca, !WW. repeat split; auto.
  - destruct (stacked_In _ _ _ _ Hst Ha) as (A1 & A2 & A3). lia.
Qed.

Lemma malloc_then_free_round_trip_witness :
  fst (m61_malloc 24 None 5 one_live) = example_base + 10 /\
  active_allocations
    (m61_free glibc_p (fst (m61_malloc 24 None 5 one_live)) None 6
       (snd (m61_malloc 24 None 5 one_live)))
  = active_allocations one_live /\
  nactive (gstats
    (m61_free glibc_p (fst (m61_malloc 24 None 5 one_live)) None 6
       (snd (m61_malloc 24 None 5 one_live)))) = 1 /\
  pos (default_buffer
    (m61_free glibc_p (fst (m61_malloc 24 None 5 one_live)) None 6
       (snd (m61_malloc 24 None 5 one_live)))) = 34.
Proof.
  assert (I : arena_inv one_live).
  { constructor; vm_compute; intuition discriminate. }
  assert (C : counters_inv one_live).
  { constructor; vm_compute; intuition discriminate. }
  destruct (malloc_then_free_round_trip glibc_p one_live 24 None 5 None 6
              I C) as (_ & A & B & _ & _ & _ & D);
    [lia | vm_compute; discriminate |].
  split; [reflexivity|]. split; [exact A|].
  split; [rewrite B; reflexivity | rewrite D; reflexivity].
Defined.

(** X9. Under the arena invariant, releasing a live address twice: the
    first release removes its record without printing anything, the second
    finds no record, prints the diagnostic for its own call site and
    changes neither the registry nor the statistics. *)
Theorem double_free_detected (fmt_p : Z -> string) (st : state) (p : Z)
    (f1 : option string) (l1 : Z) (f2 : option string) (l2 : Z) :
  arena_inv st ->
  is_live p st = true ->
  let st1 := m61_free fmt_p p f1 l1 st in
  let st2 := m61_free fmt_p p f2 l2 st1 in
  stderr st1 = stderr st /\
  nactive (gstats st1) = wrap (nactive (gstats st) - 1) /\
  is_live p st1 = false /\
  active_allocations st2 = active_allocations st1 /\
  gstats st2 = gstats st1 /\
  stderr st2 = stderr st ++ [invalid_free_message fmt_p p f2 l2].
Proof.
  intros I L. cbv zeta.
  pose proof (live_pointer_in_arena p st I L) as R.
  assert (Hp : p <> nullptr) by (destruct I; unfold nullptr; lia).
  pose proof (released_not_live fmt_p st p f1 l1 I Hp L) as L1.
  rewrite (free_without_match fmt_p _ p f2 l2 Hp (not_live_no_match _ _ L1)).
  simpl.
  destruct (free_cases fmt_p p f1 l1 st)
    as [[E _]|[(_ & L' & _)|(_ & _ & a & k1 & k2 & _ & _ & _ & E)]];
    [contradiction | congruence |].
  rewrite E in *. simpl. repeat split; auto.
Qed.

Lemma double_free_detected_witness :
  is_live example_base one_live = true /\
  stderr (m61_free glibc_p example_base None 30 one_live) = [] /\
  stderr (m61_free glibc_p example_base None 31
            (m61_free glibc_p example_base None 30 one_live))
  = [("Invalid free or double free at ???:31 for pointer 0x7f3a00000000"
        ++ nl)%string].
Proof.
  assert (I : arena_inv one_live).
  { constructor; vm_compute; intuition discriminate. }
  assert (L : is_live example_base one_live = true) by reflexivity.
  destruct (double_free_detected glibc_p one_live example_base
              None 30 None 31 I L) as (A & _ & _ & _ & _ & B).
  split; [exact L|]. split; [rewrite A; reflexivity|].
  rewrite B. reflexivity.
Defined.

(** X10. Under the arena invariant, releasing a live address removes
    exactly the records that start there, which is one record: the
    registry loses one element and keeps the others in order, the address
    is no longer live, nothing is written to the error stream, and a leak
    report printed afterwards lists the remaining records only. *)
Theorem free_removes_exactly_that_record (fmt_p : Z -> string) (st : state)
    (p : Z) (file : option string) (line : Z) :
  arena_inv st ->
  is_live p st = true ->
  let st' := m61_free fmt_p p file line st in
  active_allocations st' = without p (active_allocations st) /\
  S (List.length (active_allocations st'))
  = List.length (active_allocations st) /\
  is_live p st' = false /\
  stderr st' = stderr st /\
  stdout (m61_print_leak_report fmt_p st')
  = stdout st
      ++ map (leak_report_line fmt_p) (without p (active_allocations st)).
Proof.
  intros I L. cbv zeta.
  pose proof (live_pointer_in_arena p st I L) as R.
  assert (Hp : p <> nullptr) by (destruct I; unfold nullptr; lia).
  pose proof (released_not_live fmt_p st p file line I Hp L) as L1.
  destruct (free_cases fmt_p p file line st)
    as [[E _]|[(_ & L' & _)|(_ & _ & a & k1 & k2 & El & Ea & Hn & E)]];
    [contradiction | congruence |].
  assert (F : without p (active_allocations st) = k1 ++ k2).
  { rewrite El. unfold without. rewrite filter_app. simpl.
    apply Z.eqb_eq in Ea. rewrite Ea. simpl.
    fold (without p k1). fold (without p k2).
    rewrite (without_no_match p k1 Hn).
    rewrite (without_no_match p k2); [reflexivity|].
    intros b Hb. destruct I as [_ _ _ Hs]. rewrite El in Hs.
    pose proof (stacked_after _ _ _ _ _ _ Hs Hb).
    apply Z.eqb_eq in Ea. lia. }
  split; [rewrite E, F; reflexivity|].
  split; [rewrite E, El; simpl; rewrite !length_app; simpl; lia|].
  split; [exact L1|].
  split; [rewrite E; reflexivity|].
  unfold m61_print_leak_report. simpl. rewrite fold_left_snoc.
  rewrite E. simpl. rewrite F. reflexivity.
Qed.

Lemma free_removes_exactly_that_record_witness :
  active_allocations two_live
  = [allocation_info.mk example_base 10 (Some "a.cc"%string) 3;
     allocation_info.mk (example_base + 10) 24 (Some "b.cc"%string) 9] /\
  stdout (m61_print_leak_report glibc_p
            (m61_free glibc_p example_base (Some "a.cc"%string) 4 two_live))
  = [("Leak Check: b.cc:9: allocated object 0x7f3a0000000a with size 24"
        ++ nl)%string].
Proof.
  assert (I : arena_inv two_live).
  { constructor; vm_compute; intuition discriminate. }
  assert (L : is_live example_base two_live = true) by reflexivity.
  destruct (free_removes_exactly_that_record glibc_p two_live example_base
              (Some "a.cc"%string) 4 I L) as (_ & _ & _ & _ & A).
  split; [reflexivity|]. rewrite A. reflexivity.
Defined.

(** X11. Releasing an address does not change whether any other address
    is live, in any state. *)
Theorem free_leaves_other_pointers (fmt_p : Z -> string) (st : state)
    (p q : Z) (file : option string) (line : Z) :
  q <> p ->
  is_live q (m61_free fmt_p p file line st) = is_live q st.
Proof.
  intros Hq.
  destruct (free_cases fmt_p p file line st)
    as [[_ E]|[(_ & _ & E)|(_ & _ & a & k1 & k2 & El & Ea & _ & E)]];
    rewrite E; try reflexivity.
  match goal with |- is_live q ?s = _ => set (st' := s) end.
  assert (R : active_allocations st' = k1 ++ k2) by reflexivity.
  clearbody st'.
  destruct (is_live q st) eqn:L; destruct (is_live q st') eqn:L';
    try reflexivity; exfalso.
  - apply is_live_iff in L. destruct L as (b & Hb & Eb).
    assert (X : is_live q st' = true); [|congruence].
    apply is_live_iff. exists b. split; [|exact Eb].
    rewrite R. rewrite El in Hb. apply in_app_or in Hb. apply in_or_app.
    destruct Hb as [Hb|[Hb|Hb]]; auto. subst b. congruence.
  - apply is_live_iff in L'. destruct L' as (b & Hb & Eb). rewrite R in Hb.
    assert (X : is_live q st = true); [|congruence].
    apply is_live_iff. exists b. split; [|exact Eb].
    rewrite El. apply in_app_or in Hb. apply in_or_app.
    destruct Hb; [left | right; right]; assumption.
Qed.

Lemma free_leaves_other_pointers_witness :
  is_live (example_base + 10)
    (m61_free glibc_p example_base None 0 two_live) = true /\
  is_live example_base
    (m61_free glibc_p (example_base + 10) None 0 two_live) = true.
Proof.
  assert (H1 : example_base + 10 <> example_base) by lia.
  assert (H2 : example_base <> example_base + 10) by lia.
  rewrite (free_leaves_other_pointers glibc_p two_live _ _ None 0 H1).
  rewrite (free_leaves_other_pointers glibc_p two_live _ _ None 0 H2).
  split; reflexivity.
Defined.

(** X12. A non-null pointer returned by [m61_malloc] is live in the new
    state, and every address that was live before is still live, in any
    state. *)
Theorem malloc_registers_pointer (st : state) (sz : Z)
    (file : option string) (line : Z) :
  let r := m61_malloc sz file line st in
  fst r <> nullptr ->
  is_live (fst r) (snd r) = true /\
  (forall q, is_live q st = true -> is_live q (snd r) = true) /\
  exists a,
    active_allocations (snd r) = active_allocations st ++ [a] /\
    allocation_info.ptr a = fst r /\
    allocation_info.size a = sz /\
    allocation_info.file a = file /\
    allocation_info.line a = line.
Proof.
  cbv zeta. intros N.
  destruct (malloc_cases sz file line st)
    as [[E _]|(_ & _ & Ep & Ea & _)].
  - rewrite E in N. exfalso. apply N. reflexivity.
  - split; [|split].
    + apply is_live_iff. eexists. split.
      * rewrite Ea. apply in_or_app. right. left. reflexivity.
      * simpl. symmetry. exact Ep.
    + intros q L. apply is_live_iff. apply is_live_iff in L.
      destruct L as (b & Hb & Eb). exists b. split; [|exact Eb].
      rewrite Ea. apply in_or_app. left. exact Hb.
    + eexists. split; [exact Ea|]. simpl. rewrite Ep. auto.
Qed.

Lemma malloc_registers_pointer_witness :
  fst (m61_malloc 24 (Some "b.cc"%string) 9 one_live) = example_base + 10 /\
  is_live (example_base + 10)
    (snd (m61_malloc 24 (Some "b.cc"%string) 9 one_live)) = true /\
  is_live example_base
    (snd (m61_malloc 24 (Some "b.cc"%string) 9 one_live)) = true.
Proof.
  assert (N : fst (m61_malloc 24 (Some "b.cc"%string) 9 one_live)
              <> nullptr) by (vm_compute; discriminate).
  destruct (malloc_registers_pointer one_live 24 (Some "b.cc"%string) 9 N)
    as (A & B & _).
  split; [reflexivity|]. split; [exact A|]. apply B. reflexivity.
Defined.

(** ** X13: addresses are handed out in ascending order, never twice *)

Lemma step_cursor_advance fmt_p c st :
  arena_inv st ->
  tame (m61_memory_buffer.size (default_buffer st)) c ->
  (allocated_addresses [fst (step fmt_p c st)] = [] /\
   pos (default_buffer (snd (step fmt_p c st))) = pos (default_buffer st))
  \/
  (allocated_addresses [fst (step fmt_p c st)]
   = [buffer (default_buffer st) + pos (default_buffer st)] /\
   pos (default_buffer st) < pos (default_buffer (snd (step fmt_p c st)))).
Proof.
  intros I T.
  assert (M : forall sz f l,
             0 <= sz ->
             sz + m61_memory_buffer.size (default_buffer st) <= SIZE_MAX ->
             let r := m61_malloc sz f l st in
             (allocated_addresses [alloc_outcome (fst r)] = [] /\
              pos (default_buffer (snd r)) = pos (default_buffer st))
             \/
             (allocated_addresses [alloc_outcome (fst r)]
              = [buffer (default_buffer st) + pos (default_buffer st)] /\
              pos (default_buffer st) < pos (default_buffer (snd r)))).
  { intros sz f l Hs Hcap. cbv zeta.
    destruct I as [Hb Ht Hc _]. unfold cursor_ok in Hc.
    destruct (malloc_cases sz f l st)
      as [[E _]|(N & G & Ep & _ & Eb & _)].
    - left. rewrite E. simpl. auto.
    - right. rewrite Ep, Eb. simpl.
      rewrite alloc_outcome_pos by lia.
      rewrite wrap_small by lia. split; [reflexivity | lia]. }
  destruct c as [sz f l|n sz f l|p f l]; simpl.
  - destruct T as [T1 T2]. specialize (M sz f l T1 T2). cbv zeta in M.
    destruct (m61_malloc sz f l st). exact M.
  - destruct T as (Tc & Ts & Tm).
    destruct (calloc_cases n sz f l st)
      as [[_ E]|([C|[C|C]] & Ep & E)]; try lia.
    + left. rewrite E. simpl. auto.
    + assert (W : wrap (n * sz) = n * sz) by (apply wrap_small; lia).
      specialize (M (wrap (n * sz)) f l ltac:(rewrite W; lia)
                    ltac:(rewrite W; lia)). cbv zeta in M.
      destruct (m61_calloc n sz f l st) as [q st']. cbn [fst snd] in *.
      assert (G : default_buffer st'
                  = default_buffer
                      (snd (m61_malloc (wrap (n * sz)) f l st)))
        by (destruct E as [E|E]; rewrite E; simpl; auto).
      rewrite G, Ep. exact M.
  - left. destruct (free_keeps_tallies fmt_p p f l st)
      as (_ & _ & _ & _ & _ & _ & H3 & _).
    rewrite H3. split; [|reflexivity].
    destruct (negb (p =? nullptr) && is_live p st); reflexivity.
Qed.

Lemma allocated_addresses_cons o os :
  allocated_addresses (o :: os)
  = allocated_addresses [o] ++ allocated_addresses os.
Proof. destruct o; reflexivity. Qed.

Lemma run_addresses fmt_p cs st :
  arena_inv st ->
  Forall (tame (m61_memory_buffer.size (default_buffer st))) cs ->
  let r := run fmt_p cs st in
  pos (default_buffer st) <= pos (default_buffer (snd r)) /\
  Forall (fun p =>
            buffer (default_buffer st) + pos (default_buffer st) <= p
            < buffer (default_buffer st) + pos (default_buffer (snd r)))
         (allocated_addresses (fst r)) /\
  StronglySorted Z.lt (allocated_addresses (fst r)).
Proof.
  revert st. induction cs as [|c cs IH]; intros st I T; cbv zeta; simpl.
  - split; [lia|]. split; constructor.
  - inversion T as [|c' cs' Tc Tcs]; subst.
    pose proof (step_cursor_advance fmt_p c st I Tc) as A.
    pose proof (step_arena_inv fmt_p c st I Tc) as I1.
    destruct (step_arena_fixed fmt_p c st) as [A1 A2].
    destruct (step fmt_p c st) as [o st1]. cbn [fst snd] in *.
    rewrite <- A2 in Tcs.
    destruct (IH st1 I1 Tcs) as (R1 & R2 & R3).
    destruct (run fmt_p cs st1) as [os st2]. cbn [fst snd] in *.
    rewrite (allocated_addresses_cons o os). rewrite A1 in R2.
    destruct A as [[E P]|[E P]]; rewrite E; simpl.
    + rewrite P in *. auto.
    + split; [lia|]. split.
      * constructor; [lia|].
        eapply Forall_impl; [|exact R2]. simpl. intros q Hq. lia.
      * constructor; [exact R3|].
        eapply Forall_impl; [|exact R2]. simpl. intros q Hq. lia.
Qed.

(** X13. In a sequence of calls none of which can wrap the cursor, the
    non-null pointers returned by the allocation calls are strictly
    increasing in the order of the calls, whatever is released in between,
    and all of them are addresses of the arena: no address is handed out
    twice. *)
Theorem returned_addresses_ascending (fmt_p : Z -> string) (base : Z)
    (mem : Z -> Z) (cs : list call) :
  0 < base -> base + arena_size <= 2 ^ 64 ->
  Forall (tame arena_size) cs ->
  let r := run fmt_p cs (initial_state base mem) in
  StronglySorted Z.lt (allocated_addresses (fst r)) /\
  Forall (fun p => base <= p < base + arena_size)
         (allocated_addresses (fst r)).
Proof.
  intros Hb Ht T. cbv zeta.
  pose proof (initial_arena_inv base mem Hb Ht) as I.
  destruct (run_addresses fmt_p cs _ I T) as (_ & F & S).
  pose proof (run_arena_inv fmt_p cs _ I T) as [_ _ Hc _].
  destruct (run_arena_fixed fmt_p cs (initial_state base mem)) as [_ Sz].
  unfold cursor_ok in Hc. rewrite Sz in Hc. simpl in *.
  split; [exact S|].
  eapply Forall_impl; [|exact F]. simpl. intros q Hq. lia.
Qed.

Lemma returned_addresses_ascending_witness :
  allocated_addresses
    (fst (run glibc_p [Malloc 10 None 1; Free example_base None 2;
                       Malloc 10 None 3; Malloc 0 None 4; Calloc 2 4 None 5]
            fresh))
  = [example_base; example_base + 10; example_base + 20] /\
  StronglySorted Z.lt
    (allocated_addresses
       (fst (run glibc_p [Malloc 10 None 1; Free example_base None 2;
                          Malloc 10 None 3; Malloc 0 None 4;
                          Calloc 2 4 None 5]
               fresh))).
Proof.
  assert (Hb : 0 < example_base) by (unfold example_base; lia).
  assert (Ht : example_base + arena_size <= 2 ^ 64)
    by (vm_compute; discriminate).
  assert (T : Forall (tame arena_size)
                [Malloc 10 None 1; Free example_base None 2;
                 Malloc 10 None 3; Malloc 0 None 4; Calloc 2 4 None 5]).
  { repeat constructor; unfold SIZE_MAX, arena_size; simpl; lia. }
  split; [reflexivity|].
  apply (returned_addresses_ascending glibc_p example_base stale_memory _
           Hb Ht T).
Defined.

(** ** X14: m61_calloc is m61_malloc followed by zero-filling *)

Lemma malloc_keeps_memory sz file line st :
  memory (snd (m61_malloc sz file line st)) = memory st /\
  stdout (snd (m61_malloc sz file line st)) = stdout st /\
  stderr (snd (m61_malloc sz file line st)) = stderr st.
Proof.
  destruct (malloc_cases sz file line st) as [[E _]|(N & G & _)].
  - rewrite E. simpl. auto.
  - rewrite (malloc_accept_eq sz file line st N G). simpl. auto.
Qed.

(** X14. When [count * sz] fits in [size_t] and its sum with the cursor is
    representable, so that a block that [m61_malloc] hands out lies inside
    the arena, [m61_calloc count sz] returns the pointer that
    [m61_malloc (count * sz)] returns and leaves the same registry,
    statistics, arena and output; a non-null pointer is the start of
    [count * sz] bytes of the arena; the memory differs from the memory
    before the call only in those bytes, which are zero, and not at all
    when the pointer is null. *)
Theorem calloc_is_malloc_then_zero_fill (st : state) (count sz : Z)
    (file : option string) (line : Z) :
  0 <= count -> 0 <= sz -> count * sz <= SIZE_MAX ->
  0 <= pos (default_buffer st) ->
  pos (default_buffer st) + count * sz <= SIZE_MAX ->
  let r := m61_calloc count sz file line st in
  let m := m61_malloc (count * sz) file line st in
  fst r = fst m /\
  active_allocations (snd r) = active_allocations (snd m) /\
  gstats (snd r) = gstats (snd m) /\
  default_buffer (snd r) = default_buffer (snd m) /\
  stdout (snd r) = stdout st /\
  stderr (snd r) = stderr st /\
  (fst r <> nullptr ->
   buffer (default_buffer st) <= fst r /\
   fst r + count * sz
   <= buffer (default_buffer st)
      + m61_memory_buffer.size (default_buffer st)) /\
  forall a,
    memory (snd r) a
    = if negb (fst r =? nullptr)
         && ((fst r <=? a) && (a <? fst r + count * sz))
      then 0 else memory st a.
Proof.
  intros Hc Hs Hm Hp Hw. cbv zeta.
  rewrite calloc_delegate by (apply calloc_guard_false; assumption).
  rewrite (wrap_small (count * sz)) by nia.
  destruct (malloc_keeps_memory (count * sz) file line st) as (M1 & M2 & M3).
  assert (B : fst (m61_malloc (count * sz) file line st) <> nullptr ->
              buffer (default_buffer st)
              <= fst (m61_malloc (count * sz) file line st) /\
              fst (m61_malloc (count * sz) file line st) + count * sz
              <= buffer (default_buffer st)
                 + m61_memory_buffer.size (default_buffer st)).
  { intros N.
    destruct (malloc_cases (count * sz) file line st)
      as [[E _]|(_ & G & Ep & _)].
    - rewrite E in N. exfalso. apply N. reflexivity.
    - rewrite wrap_small in G by nia. rewrite Ep. lia. }
  destruct (m61_malloc (count * sz) file line st) as [p st'].
  cbn [fst snd] in *.
  destruct (negb (p =? nullptr)) eqn:Np;
    cbn [fst snd set_memory active_allocations gstats default_buffer
         stdout stderr memory];
    rewrite ?Np.
  - do 6 (split; [solve [auto]|]). split; [exact B|].
    intros a. unfold memset0. rewrite M1. reflexivity.
  - do 6 (split; [solve [auto]|]). split; [exact B|].
    intros a. rewrite M1. reflexivity.
Qed.

Lemma calloc_is_malloc_then_zero_fill_witness :
  fst (m61_calloc 3 8 None 0 one_live) = example_base + 10 /\
  memory (snd (m61_calloc 3 8 None 0 one_live)) (example_base + 9) = 0xaa /\
  memory (snd (m61_calloc 3 8 None 0 one_live)) (example_base + 10) = 0 /\
  memory (snd (m61_calloc 3 8 None 0 one_live)) (example_base + 33) = 0 /\
  memory (snd (m61_calloc 3 8 None 0 one_live)) (example_base + 34) = 0xaa.
Proof.
  destruct (calloc_is_malloc_then_zero_fill one_live 3 8 None 0)
    as (A & _ & _ & _ & _ & _ & _ & B);
    [lia | lia | unfold SIZE_MAX; lia | vm_compute; discriminate
    | vm_compute; discriminate |].
  split; [rewrite A; reflexivity|].
  rewrite !B. repeat split; reflexivity.
Defined.

(** ** X15: m61_print_statistics *)

Lemma string_length_app s1 s2 :
  String.length (s1 ++ s2) = (String.length s1 + String.length s2)%nat.
Proof.
  induction s1 as [|c s1 IH]; simpl; [reflexivity|].
  rewrite IH. reflexivity.
Qed.

Lemma length_spaces n : String.length (spaces n) = n.
Proof. induction n as [|n IH]; simpl; [reflexivity|]. rewrite IH. reflexivity. Qed.

Lemma fmt_10llu_length n :
  String.length (fmt_10llu n) = Nat.max 10 (String.length (fmt_zu n)).
Proof.
  unfold fmt_10llu. cbv zeta.
  rewrite string_length_app, length_spaces. lia.
Qed.

Lemma stat_line_length (a b c : string) (n1 n2 n3 : Z) :
  String.length
    (a ++ fmt_10llu n1 ++ b ++ fmt_10llu n2 ++ c ++ fmt_10llu n3 ++ nl)
  = (String.length a + String.length b + String.length c + 1
     + Nat.max 10 (String.length (fmt_zu n1))
     + Nat.max 10 (String.length (fmt_zu n2))
     + Nat.max 10 (String.length (fmt_zu n3)))%nat.
Proof.
  rewrite !string_length_app, !fmt_10llu_length.
  change (String.length nl) with 1%nat. lia.
Qed.

Lemma fmt_10llu_right_justified n :
  right_justified 10 (fmt_zu n) (fmt_10llu n).
Proof.
  exists (10 - String.length (fmt_zu n))%nat.
  split; [reflexivity | apply fmt_10llu_length].
Qed.

(** X15. [m61_print_statistics] appends exactly two lines to the standard
    output and changes nothing else. The first line is
    [alloc count: active A   total T   fail F] and the second is
    [alloc size:  active A   total T   fail F], each ended by a newline,
    where A, T and F are the decimal digits of the active, total and
    failure count (first line) or byte sum (second line) of the
    statistics, in this order, each right-justified with spaces in a
    column of at least 10 characters. *)
Theorem print_statistics_lines (st : state) :
  let st' := m61_print_statistics st in
  let g := m61_get_statistics st in
  exists a1 t1 f1 a2 t2 f2,
    stdout st'
    = stdout st
        ++ [("alloc count: active " ++ a1 ++ "   total " ++ t1
               ++ "   fail " ++ f1 ++ nl)%string;
            ("alloc size:  active " ++ a2 ++ "   total " ++ t2
               ++ "   fail " ++ f2 ++ nl)%string] /\
    right_justified 10 (fmt_zu (nactive g)) a1 /\
    right_justified 10 (fmt_zu (ntotal g)) t1 /\
    right_justified 10 (fmt_zu (nfail g)) f1 /\
    right_justified 10 (fmt_zu (active_size g)) a2 /\
    right_justified 10 (fmt_zu (total_size g)) t2 /\
    right_justified 10 (fmt_zu (fail_size g)) f2 /\
    active_allocations st' = active_allocations st /\
    gstats st' = gstats st /\
    default_buffer st' = default_buffer st /\
    memory st' = memory st /\
    stderr st' = stderr st.
Proof.
  cbv zeta. unfold m61_print_statistics, set_stdout. cbv zeta.
  cbn [stdout active_allocations gstats default_buffer memory stderr].
  exists (fmt_10llu (nactive (m61_get_statistics st))),
         (fmt_10llu (ntotal (m61_get_statistics st))),
         (fmt_10llu (nfail (m61_get_statistics st))),
         (fmt_10llu (active_size (m61_get_statistics st))),
         (fmt_10llu (total_size (m61_get_statistics st))),
         (fmt_10llu (fail_size (m61_get_statistics st))).
  split; [reflexivity|].
  repeat (split; [apply fmt_10llu_right_justified|]).
  repeat split; reflexivity.
Qed.

(** The two lines printed for [mixed], whose six counters are 1, 2, 3 and
    24, 34, 8388609. *)
Lemma print_statistics_lines_on_mixed :
  gstats mixed = mk_stats 1 24 2 34 3 8388609
                          example_base (example_base + 33) /\
  stdout (m61_print_statistics mixed)
  = [("alloc count: active          1   total          2   fail          3"
        ++ nl)%string;
     ("alloc size:  active         24   total         34   fail    8388609"
        ++ nl)%string].
Proof. split; reflexivity. Qed.

(** ** X16: the byte totals over a sequence of calls *)

Lemma malloc_byte_tallies sz file line st :
  0 < buffer (default_buffer st) ->
  0 <= pos (default_buffer st) ->
  let r := m61_malloc sz file line st in
  (alloc_outcome (fst r) = Refused /\
   total_size (gstats (snd r)) = total_size (gstats st) /\
   fail_size (gstats (snd r)) = wrap (fail_size (gstats st) + sz))
  \/
  (alloc_outcome (fst r) = Allocated (fst r) /\
   total_size (gstats (snd r)) = wrap (total_size (gstats st) + sz) /\
   fail_size (gstats (snd r)) = fail_size (gstats st)).
Proof.
  intros Hb Hp. cbv zeta.
  destruct (malloc_cases sz file line st) as [[E _]|(N & G & _)].
  - left. rewrite E. simpl. auto.
  - right. rewrite (malloc_accept_eq sz file line st N G). simpl.
    rewrite alloc_outcome_pos by lia. auto.
Qed.

Lemma step_byte_tallies fmt_p c st t f :
  0 < buffer (default_buffer st) ->
  cursor_ok st ->
  total_size (gstats st) = wrap t ->
  fail_size (gstats st) = wrap f ->
  total_size (gstats (snd (step fmt_p c st)))
  = wrap (t + allocated_bytes [c] [fst (step fmt_p c st)]) /\
  fail_size (gstats (snd (step fmt_p c st)))
  = wrap (f + refused_bytes [c] [fst (step fmt_p c st)]).
Proof.
  intros Hb Hc Ht Hf. unfold cursor_ok in Hc.
  assert (A : forall (r : Z * state) b,
             (alloc_outcome (fst r) = Refused /\
              total_size (gstats (snd r)) = total_size (gstats st) /\
              fail_size (gstats (snd r)) = wrap (fail_size (gstats st) + b))
             \/
             (alloc_outcome (fst r) = Allocated (fst r) /\
              total_size (gstats (snd r))
              = wrap (total_size (gstats st) + b) /\
              fail_size (gstats (snd r)) = fail_size (gstats st)) ->
             forall c0, request_bytes c0 = b ->
             total_size (gstats (snd r))
             = wrap (t + allocated_bytes [c0] [alloc_outcome (fst r)]) /\
             fail_size (gstats (snd r))
             = wrap (f + refused_bytes [c0] [alloc_outcome (fst r)])).
  { intros r b [(E & T & F)|(E & T & F)] c0 Hc0;
      rewrite T, F, Ht, Hf, E; simpl; rewrite Hc0, wrap_add_l, !Z.add_0_r;
      auto. }
  destruct c as [sz fl l|k sz fl l|p fl l]; simpl.
  - specialize (A _ _ (malloc_byte_tallies sz fl l st Hb ltac:(lia))
                  (Malloc sz fl l) eq_refl).
    destruct (m61_malloc sz fl l st). exact A.
  - assert (B : let r := m61_calloc k sz fl l st in
                (alloc_outcome (fst r) = Refused /\
                 total_size (gstats (snd r)) = total_size (gstats st) /\
                 fail_size (gstats (snd r))
                 = wrap (fail_size (gstats st) + wrap (k * sz)))
                \/
                (alloc_outcome (fst r) = Allocated (fst r) /\
                 total_size (gstats (snd r))
                 = wrap (total_size (gstats st) + wrap (k * sz)) /\
                 fail_size (gstats (snd r)) = fail_size (gstats st))).
    { cbv zeta.
      pose proof (malloc_byte_tallies (wrap (k * sz)) fl l st Hb
                    ltac:(lia)) as M. cbv zeta in M.
      destruct (calloc_cases k sz fl l st) as [[_ E]|(_ & Ep & [E|E])].
      - left. rewrite E. simpl. auto.
      - rewrite Ep, E. exact M.
      - rewrite Ep, E. simpl. exact M. }
    specialize (A _ _ B (Calloc k sz fl l) eq_refl).
    destruct (m61_calloc k sz fl l st). exact A.
  - destruct (free_keeps_tallies fmt_p p fl l st) as (_ & T & _ & F & _).
    rewrite T, F, Ht, Hf.
    destruct (negb (p =? nullptr) && is_live p st); simpl;
      rewrite !Z.add_0_r; auto.
Qed.

Lemma allocated_bytes_cons c cs o os :
  allocated_bytes (c :: cs) (o :: os)
  = allocated_bytes [c] [o] + allocated_bytes cs os.
Proof. destruct o; simpl; lia. Qed.

Lemma refused_bytes_cons c cs o os :
  refused_bytes (c :: cs) (o :: os)
  = refused_bytes [c] [o] + refused_bytes cs os.
Proof. destruct o; simpl; lia. Qed.

Lemma run_byte_tallies fmt_p cs st t f :
  0 < buffer (default_buffer st) ->
  cursor_ok st ->
  total_size (gstats st) = wrap t ->
  fail_size (gstats st) = wrap f ->
  total_size (gstats (snd (run fmt_p cs st)))
  = wrap (t + allocated_bytes cs (fst (run fmt_p cs st))) /\
  fail_size (gstats (snd (run fmt_p cs st)))
  = wrap (f + refused_bytes cs (fst (run fmt_p cs st))).
Proof.
  revert st t f. induction cs as [|c cs IH]; intros st t f Hb Hc Ht Hf.
  - simpl. rewrite !Z.add_0_r. auto.
  - cbn [run].
    destruct (step_byte_tallies fmt_p c st t f Hb Hc Ht Hf) as [S1 S2].
    pose proof (step_cursor_ok fmt_p c st Hc) as C1.
    destruct (step_arena_fixed fmt_p c st) as [B1 _].
    destruct (step fmt_p c st) as [o st1]. cbn [fst snd] in *.
    rewrite <- B1 in Hb.
    destruct (IH st1 _ _ Hb C1 S1 S2) as [R1 R2].
    destruct (run fmt_p cs st1) as [os st2]. cbn [fst snd] in *.
    rewrite (allocated_bytes_cons c cs o os), (refused_bytes_cons c cs o os).
    rewrite R1, R2. split; f_equal; lia.
Qed.

(** X16. After any sequence of calls on the initial state, the total-byte
    statistic is the sum of the bytes requested by the allocation calls
    that returned a non-null pointer, and the failure-byte statistic is
    the sum of the bytes requested by those that returned null, both as
    values of the 64-bit counters; for [m61_calloc] the bytes requested are
    the [size_t] product of its arguments on every failing path. *)
Theorem byte_totals_sum_requests (fmt_p : Z -> string) (base : Z)
    (mem : Z -> Z) (cs : list call) :
  0 < base ->
  let r := run fmt_p cs (initial_state base mem) in
  total_size (m61_get_statistics (snd r))
  = wrap (allocated_bytes cs (fst r)) /\
  fail_size (m61_get_statistics (snd r))
  = wrap (refused_bytes cs (fst r)).
Proof.
  intros Hb. cbv zeta. unfold m61_get_statistics.
  apply (run_byte_tallies fmt_p cs (initial_state base mem) 0 0).
  - exact Hb.
  - unfold cursor_ok. simpl. unfold arena_size. simpl. lia.
  - reflexivity.
  - reflexivity.
Qed.

Lemma byte_totals_sum_requests_witness :
  total_size (m61_get_statistics (snd (run glibc_p
         [Malloc 10 None 1; Malloc (arena_size + 1) None 2;
          Calloc SIZE_MAX 2 None 3; Calloc 3 8 None 4]
         fresh))) = wrap (10 + 24) /\
  fail_size (m61_get_statistics (snd (run glibc_p
         [Malloc 10 None 1; Malloc (arena_size + 1) None 2;
          Calloc SIZE_MAX 2 None 3; Calloc 3 8 None 4]
         fresh))) = wrap ((arena_size + 1) + (SIZE_MAX - 1)).
Proof.
  assert (H : 0 < example_base) by (unfold example_base; lia).
  exact (byte_totals_sum_requests glibc_p example_base stale_memory
           [Malloc 10 None 1; Malloc (arena_size + 1) None 2;
            Calloc SIZE_MAX 2 None 3; Calloc 3 8 None 4] H).
Defined.

(** ** X17: the recorded address range only widens *)

Lemma step_heap_widens fmt_p c st :
  0 < buffer (default_buffer st) ->
  cursor_ok st ->
  let st' := snd (step fmt_p c st) in
  heap_max (gstats st) <= heap_max (gstats st') /\
  (0 < heap_min (gstats st) ->
   0 < heap_min (gstats st') <= heap_min (gstats st)).
Proof.
  intros Hb Hc. cbv zeta. unfold cursor_ok in Hc.
  assert (M : forall sz f l,
             heap_max (gstats st)
             <= heap_max (gstats (snd (m61_malloc sz f l st))) /\
             (0 < heap_min (gstats st) ->
              0 < heap_min (gstats (snd (m61_malloc sz f l st)))
              <= heap_min (gstats st))).
  { intros sz f l.
    destruct (malloc_cases sz f l st) as [[E _]|(N & G & _)].
    - rewrite E. simpl. split; lia.
    - rewrite (malloc_accept_eq sz f l st N G). simpl. split.
      + destruct (Z.gtb_spec
                    (wrap (buffer (default_buffer st)
                           + pos (default_buffer st) + sz - 1))
                    (heap_max (gstats st))); lia.
      + intros H.
        destruct (Z.eqb_spec (heap_min (gstats st)) 0); [lia|]. simpl.
        destruct (Z.ltb_spec
                    (buffer (default_buffer st) + pos (default_buffer st))
                    (heap_min (gstats st))); lia. }
  destruct c as [sz f l|n sz f l|p f l]; simpl.
  - specialize (M sz f l). destruct (m61_malloc sz f l st). exact M.
  - specialize (M (wrap (n * sz)) f l).
    destruct (calloc_cases n sz f l st) as [[_ E]|(_ & _ & [E|E])].
    + rewrite E. simpl. split; lia.
    + destruct (m61_calloc n sz f l st). simpl in E. subst. exact M.
    + destruct (m61_calloc n sz f l st). simpl in E. subst. exact M.
  - destruct (free_keeps_tallies fmt_p p f l st)
      as (_ & _ & _ & _ & H1 & H2 & _).
    rewrite H1, H2. split; lia.
Qed.

(** X17. Over any sequence of calls, whatever sizes and pointers are
    passed, from a state whose arena does not contain the null address:
    the recorded upper address never decreases, and a recorded lower
    address that is set (positive) stays set and never increases. *)
Theorem heap_range_only_widens (fmt_p : Z -> string) (st : state)
    (cs : list call) :
  0 < buffer (default_buffer st) ->
  cursor_ok st ->
  let st' := snd (run fmt_p cs st) in
  heap_max (gstats st) <= heap_max (gstats st') /\
  (0 < heap_min (gstats st) ->
   0 < heap_min (gstats st') <= heap_min (gstats st)).
Proof.
  revert st. induction cs as [|c cs IH]; intros st Hb Hc; cbv zeta; simpl.
  - split; lia.
  - destruct (step_heap_widens fmt_p c st Hb Hc) as [S1 S2].
    pose proof (step_cursor_ok fmt_p c st Hc) as C1.
    destruct (step_arena_fixed fmt_p c st) as [B1 _].
    destruct (step fmt_p c st) as [o st1]. cbn [fst snd] in *.
    rewrite <- B1 in Hb.
    destruct (IH st1 Hb C1) as [R1 R2].
    destruct (run fmt_p cs st1) as [os st2]. cbn [fst snd] in *.
    split; [lia|]. intros H. specialize (S2 H).
    specialize (R2 ltac:(lia)). lia.
Qed.

Lemma heap_range_only_widens_witness :
  heap_min (gstats one_live) = example_base /\
  heap_max (gstats one_live) = example_base + 9 /\
  heap_min (gstats (snd (run glibc_p
     [Free example_base None 1; Malloc SIZE_MAX None 2; Malloc 5 None 3]
     one_live))) = example_base /\
  example_base + 9
  <= heap_max (gstats (snd (run glibc_p
     [Free example_base None 1; Malloc SIZE_MAX None 2; Malloc 5 None 3]
     one_live))).
Proof.
  assert (Hb : 0 < buffer (default_buffer one_live))
    by (vm_compute; reflexivity).
  assert (Hc : cursor_ok one_live)
    by (unfold cursor_ok; vm_compute; intuition discriminate).
  destruct (heap_range_only_widens glibc_p one_live
              [Free example_base None 1; Malloc SIZE_MAX None 2;
               Malloc 5 None 3] Hb Hc) as [A _].
  split; [reflexivity|]. split; [reflexivity|]. split; [reflexivity|].
  exact A.
Defined.

(** ** Consequences of a wrapping request for the registry *)

(** C4 fails on the code. After an allocation of 1 byte and an allocation
    of [SIZE_MAX] bytes, which [m61_malloc] accepts because [pos + sz]
    wraps, both calls have returned non-null pointers and nothing has been
    released; the active count is 2, but the active-byte total is 0 while
    the sizes of the two live records sum to 2^64. *)
Theorem active_bytes_differ_from_live_sizes :
  let r := run glibc_p [Malloc 1 None 1; Malloc SIZE_MAX None 2] fresh in
  fst r = [Allocated example_base; Allocated (example_base + 1)] /\
  count_allocated (fst r) - count_released (fst r) = 2 /\
  nactive (m61_get_statistics (snd r)) = 2 /\
  active_allocations (snd r)
  = [allocation_info.mk example_base 1 None 1;
     allocation_info.mk (example_base + 1) SIZE_MAX None 2] /\
  sum_sizes (active_allocations (snd r)) = 2 ^ 64 /\
  active_size (m61_get_statistics (snd r)) = 0 /\
  active_size (m61_get_statistics (snd r))
  <> sum_sizes (active_allocations (snd r)).
Proof. vm_compute. repeat split; discriminate. Qed.

(** C10 fails on the code. In [overlapped] the registry holds a record of
    2 bytes at the base of the arena and, from the wrapping request, a
    record of [SIZE_MAX] bytes that starts one byte further. That address
    is strictly inside the 2-byte record, yet releasing it is not reported:
    [m61_free] erases the [SIZE_MAX] record, decrements the active count
    and writes nothing to the error stream. *)
Theorem free_interior_pointer_erases_overlapping_record :
  let r := allocation_info.mk example_base 2 None 3 in
  let p := allocation_info.ptr r + 1 in
  let st' := m61_free glibc_p p None 4 overlapped in
  active_allocations overlapped
  = [allocation_info.mk example_base 1 None 1;
     allocation_info.mk (example_base + 1) SIZE_MAX None 2;
     r] /\
  0 < 1 < allocation_info.size r /\
  active_allocations st'
  = [allocation_info.mk example_base 1 None 1; r] /\
  nactive (gstats overlapped) = 3 /\
  nactive (gstats st') = 2 /\
  stderr overlapped = [] /\
  stderr st' = [].
Proof. vm_compute. repeat split. Qed.
